(** * Session / profile synchronisation of the account dashboard

    A shallow embedding of the three React components of the dashboard
    ([pages/Index.tsx], [pages/Dashboard.tsx], [components/ProfileForm.tsx]):
    component state is a record, every asynchronous call is split at its
    [await] into the part that issues the request and the part that resumes
    when the promise settles, and [try]/[catch]/[finally] is a small
    state-and-exception monad. *)

From stdpp Require Import gmap strings list fin_maps.

Local Open Scope string_scope.
Local Open Scope list_scope.

(** ** Data model *)

(** The fields of the identity provider's user object the components read:
    [user.id], [user.email], [user.created_at]. *)
Record User := mkUser {
  user_id : string;
  user_email : option string;
  user_created_at : string
}.

(** [interface UserProfile] of Dashboard.tsx; [string | null] is an option. *)
Record UserProfile := mkProfile {
  id : string;
  first_name : option string;
  last_name : option string;
  email : option string;
  created_at : string;
  updated_at : string
}.

(** Failure kinds a repository call can report (spec, sections 4.2 and 7). *)
Inductive FailureKind := NotFound | TransientError | Conflict.

(** What a [.single()] query resolves to: [{data, error: null}] or
    [{data: null, error}]. *)
Inductive PgResult :=
| PgData (data : UserProfile)
| PgError (error : FailureKind).

(** How an awaited promise settles. *)
Inductive Settled (A : Type) :=
| Fulfilled (a : A)
| Rejected (reason : string).
Arguments Fulfilled {A} a.
Arguments Rejected {A} reason.

(** Notifications sent through [toast.success] / [toast.error]. *)
Inductive Toast :=
| ToastSuccess (message : string)
| ToastError (message : string).

(** The object literal sent to [.update(...)]: column name to value. *)
Abbreviation Patch := (gmap string string).

(** JavaScript's [a || b] on [string | null | undefined]: the empty string
    is falsy as well. *)
Definition js_or (a : option string) (b : string) : string :=
  match a with
  | Some s => if decide (s = "") then b else s
  | None => b
  end.

(** ** ProfileForm.tsx *)
Module ProfileForm.

(** The three [useState] cells of the component. *)
Record t := mk {
  isOpen : bool;
  loading : bool;
  formData : gmap string string
}.

(** Initial state on mount (lines 23-29). *)
Definition init (profile : UserProfile) : t :=
  {| isOpen := false;
     loading := false;
     formData :=
       <["first_name" := js_or (first_name profile) ""]>
       (<["last_name" := js_or (last_name profile) ""]>
       (<["email" := js_or (email profile) ""]> ∅)) |}.

Definition setIsOpen (b : bool) (f : t) : t :=
  {| isOpen := b; loading := loading f; formData := formData f |}.

Definition setLoading (b : bool) (f : t) : t :=
  {| isOpen := isOpen f; loading := b; formData := formData f |}.

Definition setFormData (g : gmap string string → gmap string string) (f : t) : t :=
  {| isOpen := isOpen f; loading := loading f; formData := g (formData f) |}.

(** [handleInputChange]: [{...prev, [name]: value}] (lines 31-37). *)
Definition handleInputChange (name value : string) (f : t) : t :=
  setFormData (λ prev, <[name := value]> prev) f.

(** A property whose value is [undefined] is left out of the request body. *)
Definition with_field (k : string) (v : option string) (o : Patch) : Patch :=
  match v with
  | Some x => <[k := x]> o
  | None => o
  end.

(** The argument of [.update(...)] in [handleSubmit] (lines 46-50); [now]
    is [new Date().toISOString()]. *)
Definition update_patch (fd : gmap string string) (now : string) : Patch :=
  with_field "first_name" (fd !! "first_name")
    (with_field "last_name" (fd !! "last_name")
      (<["updated_at" := now]> ∅)).

End ProfileForm.

(** ** The running application: Dashboard.tsx with its child form *)

(** Dashboard's [useState] cells and the [user] it reads from the auth
    context, the mounted [ProfileForm] (if rendered), the requests that are
    in flight, and the three sinks the handlers write to. *)
Record App := mkApp {
  user : option User;
  profile : option UserProfile;
  loading : bool;
  form : option ProfileForm.t;
  fetches : list string;
  updates : list (string * Patch);
  signouts : nat;
  toasts : list Toast;
  console : list string;
  nav : list string
}.

Definition with_user (u : option User) (s : App) : App :=
  mkApp u (profile s) (loading s) (form s) (fetches s) (updates s)
        (signouts s) (toasts s) (console s) (nav s).
Definition with_profile (p : option UserProfile) (s : App) : App :=
  mkApp (user s) p (loading s) (form s) (fetches s) (updates s)
        (signouts s) (toasts s) (console s) (nav s).
Definition with_loading (b : bool) (s : App) : App :=
  mkApp (user s) (profile s) b (form s) (fetches s) (updates s)
        (signouts s) (toasts s) (console s) (nav s).
Definition with_form (f : option ProfileForm.t) (s : App) : App :=
  mkApp (user s) (profile s) (loading s) f (fetches s) (updates s)
        (signouts s) (toasts s) (console s) (nav s).
Definition with_fetches (l : list string) (s : App) : App :=
  mkApp (user s) (profile s) (loading s) (form s) l (updates s)
        (signouts s) (toasts s) (console s) (nav s).
Definition with_updates (l : list (string * Patch)) (s : App) : App :=
  mkApp (user s) (profile s) (loading s) (form s) (fetches s) l
        (signouts s) (toasts s) (console s) (nav s).
Definition with_signouts (n : nat) (s : App) : App :=
  mkApp (user s) (profile s) (loading s) (form s) (fetches s) (updates s)
        n (toasts s) (console s) (nav s).
Definition with_toasts (l : list Toast) (s : App) : App :=
  mkApp (user s) (profile s) (loading s) (form s) (fetches s) (updates s)
        (signouts s) l (console s) (nav s).
Definition with_console (l : list string) (s : App) : App :=
  mkApp (user s) (profile s) (loading s) (form s) (fetches s) (updates s)
        (signouts s) (toasts s) l (nav s).
Definition with_nav (l : list string) (s : App) : App :=
  mkApp (user s) (profile s) (loading s) (form s) (fetches s) (updates s)
        (signouts s) (toasts s) (console s) l.

(** ** Effects: state plus exceptions *)

Inductive Outcome (A : Type) :=
| Returned (a : A)
| Threw (e : string).
Arguments Returned {A} a.
Arguments Threw {A} e.

Definition Eff (A : Type) : Type := App → Outcome A * App.

Definition ret {A} (a : A) : Eff A := λ s, (Returned a, s).

Definition bind {A B} (m : Eff A) (k : A → Eff B) : Eff B :=
  λ s, match m s with
       | (Returned a, s') => k a s'
       | (Threw e, s') => (Threw e, s')
       end.

Definition throw {A} (e : string) : Eff A := λ s, (Threw e, s).

Definition modify (g : App → App) : Eff unit := λ s, (Returned tt, g s).

Notation "'let*' x := m 'in' k" := (bind m (λ x, k))
  (at level 10, x name, m at level 100, k at level 200).
Notation "m >> k" := (bind m (λ _, k))
  (at level 100, right associativity).

(** [try { body } catch (e) { handler e } finally { fin }]. *)
Definition try_catch_finally (body : Eff unit) (handler : string → Eff unit)
    (fin : Eff unit) : Eff unit :=
  λ s, let '(o, s1) := match body s with
                       | (Threw e, s') => handler e s'
                       | r => r
                       end in
       match fin s1 with
       | (Returned _, s2) => (o, s2)
       | (Threw e, s2) => (Threw e, s2)
       end.

(** [try { body } catch (e) { handler e }]. *)
Definition try_catch (body : Eff unit) (handler : string → Eff unit) : Eff unit :=
  try_catch_finally body handler (ret tt).

(** Resuming after [await p] once [p] has settled. *)
Definition await {A} (p : Settled A) : Eff A :=
  match p with
  | Fulfilled a => ret a
  | Rejected reason => throw reason
  end.

(** The sinks. *)
Definition toast_success (m : string) : Eff unit :=
  modify (λ s, with_toasts (toasts s ++ [ToastSuccess m]) s).
Definition toast_error (m : string) : Eff unit :=
  modify (λ s, with_toasts (toasts s ++ [ToastError m]) s).
Definition console_error (m : string) : Eff unit :=
  modify (λ s, with_console (console s ++ [m]) s).
Definition navigate (path : string) : Eff unit :=
  modify (λ s, with_nav (nav s ++ [path]) s).

(** Dashboard's state setters. *)
Definition setProfile (data : UserProfile) : Eff unit :=
  modify (with_profile (Some data)).
Definition setLoading (b : bool) : Eff unit :=
  modify (with_loading b).

(** A state setter of the child form; it does nothing when no form is
    mounted. *)
Definition setForm (g : ProfileForm.t → ProfileForm.t) : Eff unit :=
  modify (λ s, with_form (g <$> form s) s).

(** ** Event handlers *)

(** The body of [fetchProfile] from its [await] on (Dashboard.tsx, lines
    32-49); [r] is how the query settled. *)
Definition fetchProfile_resume (r : Settled PgResult) : Eff unit :=
  try_catch_finally
    (let* res := await r in
     match res with
     | PgError _ =>
         console_error "Error fetching profile:" >>
         toast_error "Failed to load profile data"
     | PgData data => setProfile data
     end)
    (λ _, console_error "Unexpected error:")
    (setLoading false).

(** [fetchProfile] up to its [await]: with a user, the query
    [.eq('id', user.id)] is sent; without one nothing happens. *)
Definition fetchProfile_start : Eff unit :=
  λ s, match user s with
       | Some u => (Returned tt, with_fetches (fetches s ++ [user_id u]) s)
       | None => (Returned tt, s)
       end.

(** [handleLogout] up to [await signOut()] and from it on (lines 56-68). *)
Definition handleLogout_start : Eff unit :=
  modify (λ s, with_signouts (S (signouts s)) s).

Definition handleLogout_resume (r : Settled (option string)) : Eff unit :=
  try_catch
    (let* error := await r in
     match error with
     | Some _ => toast_error "Failed to sign out"
     | None => toast_success "Signed out successfully" >> navigate "/"
     end)
    (λ _, toast_error "An unexpected error occurred").

(** [handleProfileUpdate] (lines 70-72). *)
Definition handleProfileUpdate (updatedProfile : UserProfile) : Eff unit :=
  setProfile updatedProfile.

(** [handleSubmit] of the form up to its [await] (ProfileForm.tsx, lines
    40-53): the form it runs in is [f], its [profile] prop is [p]. *)
Definition handleSubmit_start (f : ProfileForm.t) (p : UserProfile)
    (now : string) : Eff unit :=
  setForm (ProfileForm.setLoading true) >>
  modify (λ s, with_updates
                 (updates s ++ [(id p, ProfileForm.update_patch (ProfileForm.formData f) now)]) s).

(** [handleSubmit] from its [await] on (lines 55-68); [onProfileUpdate] is
    Dashboard's [handleProfileUpdate]. *)
Definition handleSubmit_resume (r : Settled PgResult) : Eff unit :=
  try_catch_finally
    (let* res := await r in
     match res with
     | PgError _ =>
         toast_error "Failed to update profile" >>
         console_error "Error updating profile:"
     | PgData data =>
         toast_success "Profile updated successfully!" >>
         handleProfileUpdate data >>
         setForm (ProfileForm.setIsOpen false)
     end)
    (λ _, toast_error "An unexpected error occurred" >>
          console_error "Unexpected error:")
    (setForm (ProfileForm.setLoading false)).

(** ** Rendering *)

Inductive View :=
| LoadingView
| DashboardView (firstName lastName email joinDate : string) (editProfile : bool).

(** What Dashboard returns (lines 74-85 and the [profile && <ProfileForm/>]
    of the profile card). *)
Definition render (s : App) : View :=
  if loading s then LoadingView
  else
    DashboardView
      (js_or (profile s ≫= first_name) "User")
      (js_or (profile s ≫= last_name) "")
      (js_or (profile s ≫= email) (js_or (user s ≫= user_email) ""))
      (js_or (created_at <$> profile s) (js_or (user_created_at <$> user s) ""))
      (bool_decide (is_Some (profile s))).

(** After a state change the tree is rendered again: the form is mounted
    (with fresh state) when it appears, keeps its state while it stays, and
    is unmounted when it disappears. *)
Definition rerender (s : App) : App :=
  match render s, profile s with
  | DashboardView _ _ _ _ true, Some p =>
      match form s with
      | Some _ => s
      | None => with_form (Some (ProfileForm.init p)) s
      end
  | _, _ => with_form None s
  end.

(** ** Events *)

Inductive Event :=
| AuthChange (u : option User)
| FetchSettled (n : nat) (r : Settled PgResult)
| OpenDialog
| CloseDialog
| InputChange (name value : string)
| SubmitForm (now : string)
| UpdateSettled (n : nat) (r : Settled PgResult)
| ClickLogout
| SignOutSettled (r : Settled (option string)).

(** The handler an event runs. [AuthChange u] is a change of the effect's
    dependency [[user]]: the auth context hands Dashboard a user object
    other than the one of the previous render (or [null] after an object,
    or an object after [null]), which re-runs the effect; a render with the
    same object is no [AuthChange] (see [deliver] below). [FetchSettled n]
    and [UpdateSettled n] settle the [n]-th request in flight; the others
    are the handlers wired to the buttons and inputs. *)
Definition react (e : Event) : Eff unit :=
  match e with
  | AuthChange u => modify (with_user u) >> fetchProfile_start
  | FetchSettled n r =>
      λ s, match fetches s !! n with
           | Some _ => fetchProfile_resume r (with_fetches (delete n (fetches s)) s)
           | None => (Returned tt, s)
           end
  | OpenDialog => setForm (ProfileForm.setIsOpen true)
  | CloseDialog => setForm (ProfileForm.setIsOpen false)
  | InputChange name value => setForm (ProfileForm.handleInputChange name value)
  | SubmitForm now =>
      λ s, match form s, profile s with
           | Some f, Some p => handleSubmit_start f p now s
           | _, _ => (Returned tt, s)
           end
  | UpdateSettled n r =>
      λ s, match updates s !! n with
           | Some _ => handleSubmit_resume r (with_updates (delete n (updates s)) s)
           | None => (Returned tt, s)
           end
  | ClickLogout => handleLogout_start
  | SignOutSettled r =>
      λ s, match signouts s with
           | S k => handleLogout_resume r (with_signouts k s)
           | O => (Returned tt, s)
           end
  end.

Definition step (e : Event) (s : App) : App := rerender (snd (react e s)).

Definition run (es : list Event) (s : App) : App := foldl (λ s e, step e s) s es.

(** Dashboard as first rendered for [u]: the initial [useState] values and
    the first run of the effect. *)
Definition mount (u : option User) : App :=
  rerender (snd (fetchProfile_start
    (mkApp u None true None [] [] 0 [] [] []))).

(** ** The dependency array of the effect *)

(** A user object as the auth context hands it over: its identity, which
    is what [Object.is] compares, and its fields. [null] is [None]. *)
Record UserRef := mkRef {
  ref_identity : nat;
  ref_user : User
}.

(** [Object.is] on two values of [user]. *)
Definition same_object (a b : option UserRef) : bool :=
  bool_decide (ref_identity <$> a = ref_identity <$> b).

(** Dashboard is rendered with [r] as [user]; [st.1] is the [user] of the
    previous render, the dependency the effect was last run with
    (Dashboard.tsx, line 54). The effect runs again only if the dependency
    has changed. *)
Definition deliver (r : option UserRef) (st : option UserRef * App) :
    option UserRef * App :=
  if same_object r st.1 then st
  else (r, step (AuthChange (ref_user <$> r)) st.2).

Definition deliver_all (rs : list (option UserRef)) (st : option UserRef * App) :
    option UserRef * App :=
  foldl (λ st r, deliver r st) st rs.

(** ** Index.tsx *)

(** What [useAuthContext()] hands to Index. *)
Record AuthContext := mkAuth {
  auth_user : option User;
  auth_loading : bool
}.

(** The redirect effect (lines 14-18): the [navigate] calls it makes. *)
Definition Index_effect (a : AuthContext) : list string :=
  if negb (auth_loading a) && bool_decide (is_Some (auth_user a))
  then ["/dashboard"] else [].

Inductive IndexView := IndexLoading | IndexLanding.

Definition Index_render (a : AuthContext) : IndexView :=
  if auth_loading a then IndexLoading else IndexLanding.

(** ** The profile store *)

(** The supabase client and the [profiles] table are not part of the
    sources; the store behind [supabase.from('profiles')] is the
    row-keyed-by-identity store of sections 4.2 and 6 of the spec. *)

(** Modelled from the spec: what the point update of section 4.2 writes
    into a row, as far as the two name fields go: a name the patch has is
    overwritten, one it has not is kept, and [id] is immutable. The spec's
    patch has the two names only. For the other columns a request may
    carry ([email], [created_at], [updated_at]) this model overwrites them
    as well, which is the harder case for the e-mail property below; the
    spec leaves [updated_at] to the store, and nothing is concluded from
    this model about it. *)
Definition apply_patch (patch : Patch) (row : UserProfile) : UserProfile :=
  {| id := id row;
     first_name := match patch !! "first_name" with Some v => Some v | None => first_name row end;
     last_name := match patch !! "last_name" with Some v => Some v | None => last_name row end;
     email := match patch !! "email" with Some v => Some v | None => email row end;
     created_at := default (created_at row) (patch !! "created_at");
     updated_at := default (updated_at row) (patch !! "updated_at") |}.

(** Modelled from the spec: the point fetch [.select('*').eq('id', uid)
    .single()], which fails with [NotFound] when there is no row. *)
Definition repo_fetch (store : gmap string UserProfile) (uid : string) : PgResult :=
  match store !! uid with
  | Some row => PgData row
  | None => PgError NotFound
  end.

(** Modelled from the spec: the atomic point update
    [.update(patch).eq('id', uid).select().single()], which returns the row
    as stored, or fails with [NotFound] and leaves the store alone. *)
Definition repo_update (store : gmap string UserProfile) (uid : string)
    (patch : Patch) : PgResult * gmap string UserProfile :=
  match store !! uid with
  | Some row => (PgData (apply_patch patch row), <[uid := apply_patch patch row]> store)
  | None => (PgError NotFound, store)
  end.

(** ** Vocabulary of the properties *)

(** An event that hands Dashboard a signed-in user. *)
Definition signs_in (e : Event) : bool :=
  match e with
  | AuthChange (Some _) => true
  | _ => false
  end.

(** What holds of Dashboard as long as it has never seen a user. *)
Definition never_signed_in (s : App) : Prop :=
  user s = None ∧ profile s = None ∧ loading s = true ∧ form s = None ∧
  fetches s = [] ∧ updates s = [].

(** The user a sign-in event carries. *)
Definition sign_in_of (e : Event) : option User :=
  match e with
  | AuthChange (Some u) => Some u
  | _ => None
  end.

(** The user of the last sign-in of a trace. *)
Fixpoint last_sign_in (es : list Event) : option User :=
  match es with
  | [] => None
  | e :: es' =>
      match last_sign_in es' with
      | Some u => Some u
      | None => sign_in_of e
      end
  end.

(** A session change, or the oldest query in flight answering with the row
    it asked for. *)
Definition in_order_event (s : App) (e : Event) : Prop :=
  match e with
  | AuthChange _ => True
  | FetchSettled n (Fulfilled (PgData d)) => n = 0 ∧ head (fetches s) = Some (id d)
  | _ => False
  end.

Fixpoint in_order (es : list Event) (s : App) : Prop :=
  match es with
  | [] => True
  | e :: es' => in_order_event s e ∧ in_order es' (step e s)
  end.

(** Whose profile Dashboard ends up with once the queries in flight have
    settled in order: the newest query's, or the cached one's. *)
Definition settles_to (s : App) : option string :=
  match last (fetches s) with
  | Some uid => Some uid
  | None => id <$> profile s
  end.

(** Dashboard shows profile [p] and the form is mounted with state [f]. *)
Definition mounted (s : App) (f : ProfileForm.t) (p : UserProfile) : Prop :=
  form s = Some f ∧ profile s = Some p ∧ loading s = false.

(** The update did not come back with a row: an error reply of any kind,
    or a rejected promise. *)
Definition failed (r : Settled PgResult) : Prop :=
  match r with
  | Fulfilled (PgData _) => False
  | _ => True
  end.

(** The one event after which Dashboard navigates: a sign-out it started
    comes back without an error. *)
Definition logout_succeeds (e : Event) (s : App) : bool :=
  match e with
  | SignOutSettled (Fulfilled None) => bool_decide (0 < signouts s)
  | _ => false
  end.

(** An event that settles a fetch. *)
Definition settles_fetch (e : Event) : bool :=
  match e with
  | FetchSettled _ _ => true
  | _ => false
  end.

(** An event that resumes a handler after its [await]. *)
Definition settles (e : Event) : bool :=
  match e with
  | FetchSettled _ _ | UpdateSettled _ _ | SignOutSettled _ => true
  | _ => false
  end.

(** Typing a sequence of values into inputs, given as (name, value). *)
Definition typing (edits : list (string * string)) : list Event :=
  (λ kv, InputChange kv.1 kv.2) <$> edits.

(** The draft after those edits. *)
Definition typed (edits : list (string * string)) (fd : gmap string string) :
    gmap string string :=
  foldl (λ m kv, <[kv.1 := kv.2]> m) fd edits.

(** The columns of an update request. *)
Definition patch_columns : gset string :=
  {["first_name"; "last_name"; "updated_at"]}.

(** The draft has both name fields. *)
Definition draft_complete (f : ProfileForm.t) : Prop :=
  is_Some (ProfileForm.formData f !! "first_name") ∧
  is_Some (ProfileForm.formData f !! "last_name").

(** The mounted form, if any, has a complete draft, and every update in
    flight has the three columns. *)
Definition requests_well_formed (s : App) : Prop :=
  (∀ f, form s = Some f → draft_complete f) ∧
  Forall (λ req, dom req.2 = patch_columns) (updates s).

(** What [handleLogout] sends to the notification sink when [signOut]
    settles with [r]. *)
Definition logout_toast (r : Settled (option string)) : Toast :=
  match r with
  | Fulfilled None => ToastSuccess "Signed out successfully"
  | Fulfilled (Some _) => ToastError "Failed to sign out"
  | Rejected _ => ToastError "An unexpected error occurred"
  end.

(** The renders that change the dependency of the effect: [rs] without
    the objects that repeat the one before them ([prev] before the first). *)
Fixpoint changes (prev : option UserRef) (rs : list (option UserRef)) :
    list (option UserRef) :=
  match rs with
  | [] => []
  | r :: rs' =>
      if same_object r prev then changes prev rs' else r :: changes r rs'
  end.

(** ** Sample data *)

Definition ada : User := mkUser "u-ada" (Some "ada@example.org") "2024-01-01T00:00:00.000Z".
Definition bob : User := mkUser "u-bob" (Some "bob@example.org") "2024-02-01T00:00:00.000Z".

Definition ada_row : UserProfile :=
  mkProfile "u-ada" (Some "Ada") (Some "Lovelace") (Some "ada@example.org")
            "2024-01-01T00:00:00.000Z" "2025-06-01T00:00:00.000Z".
Definition bob_row : UserProfile :=
  mkProfile "u-bob" (Some "Bob") None (Some "bob@example.org")
            "2024-02-01T00:00:00.000Z" "2024-02-01T00:00:00.000Z".

Definition sample_store : gmap string UserProfile :=
  <["u-ada" := ada_row]> (<["u-bob" := bob_row]> ∅).

(** Dashboard showing Ada's profile, the form mounted and closed. *)
Definition ada_ready : App :=
  step (FetchSettled 0 (Fulfilled (repo_fetch sample_store "u-ada"))) (mount (Some ada)).

(** Ada's form after typing a new first name and pressing Save. *)
Definition ada_saving : App :=
  run [OpenDialog; InputChange "first_name" "Augusta";
       SubmitForm "2025-07-01T00:00:00.000Z"] ada_ready.

Definition ada_saving_form : ProfileForm.t :=
  ProfileForm.setLoading true
    (ProfileForm.handleInputChange "first_name" "Augusta"
      (ProfileForm.setIsOpen true (ProfileForm.init ada_row))).

(** Ada's form with an unsaved first name typed in. *)
Definition ada_editing : App :=
  run [OpenDialog; InputChange "first_name" "Zed"] ada_ready.

Definition ada_editing_form : ProfileForm.t :=
  ProfileForm.handleInputChange "first_name" "Zed"
    (ProfileForm.setIsOpen true (ProfileForm.init ada_row)).

(** * Properties *)

(** ** Basic facts about rendering and handlers *)

Lemma rerender_fields (s : App) :
  user (rerender s) = user s ∧ profile (rerender s) = profile s ∧
  loading (rerender s) = loading s ∧ fetches (rerender s) = fetches s ∧
  updates (rerender s) = updates s ∧ signouts (rerender s) = signouts s ∧
  toasts (rerender s) = toasts s ∧ console (rerender s) = console s ∧
  nav (rerender s) = nav s.
Proof.
  unfold rerender, render.
  destruct s as [u p l f fs us so ts c nv]; cbn.
  destruct l; cbn; [done|].
  destruct p as [p|]; cbn; [|done].
  destruct f; done.
Qed.

(** The form is mounted exactly when Dashboard shows the profile card with
    a profile. *)
Lemma rerender_form (s : App) :
  form (rerender s) =
    match loading s, profile s with
    | false, Some p => Some (default (ProfileForm.init p) (form s))
    | _, _ => None
    end.
Proof.
  unfold rerender, render.
  destruct s as [u p l f fs us so ts c nv]; cbn.
  destruct l; cbn; [done|].
  destruct p as [p|]; cbn; [|done].
  destruct f; done.
Qed.

(** Replace the fields of a re-rendered state by those of the state. *)
Ltac rerender_keeps :=
  match goal with
  | |- context [rerender ?x] =>
      let H := fresh in
      destruct (rerender_fields x) as (H & ?);
      repeat match goal with
        | H' : _ ∧ _ |- _ => destruct H' as (? & ?)
        end;
      repeat match goal with
        | H' : _ (rerender x) = _ |- _ => rewrite !H'; clear H'
        | H' : _ (rerender x) = _ |- _ => clear H'
        end
  end.

Lemma run_cons (e : Event) (es : list Event) (s : App) :
  run (e :: es) s = run es (step e s).
Proof. reflexivity. Qed.

(** Every handler catches what it awaits: no event makes an exception
    leave the component. *)
Lemma react_returns (e : Event) (s : App) : fst (react e s) = Returned tt.
Proof.
  destruct e as [u|n r| | |name value|now|n r| |r]; cbn.
  - unfold bind, modify, fetchProfile_start; cbn. by destruct u.
  - destruct (fetches s !! n); [|done].
    destruct r as [[d|k]|reason]; reflexivity.
  - reflexivity.
  - reflexivity.
  - reflexivity.
  - destruct (form s), (profile s); reflexivity.
  - destruct (updates s !! n); [|done].
    destruct r as [[d|k]|reason]; reflexivity.
  - reflexivity.
  - destruct (signouts s); [done|].
    destruct r as [[m|]|reason]; reflexivity.
Qed.

(** ** Equations for the fetch reaction *)

Lemma step_auth_none (s : App) :
  step (AuthChange None) s = rerender (with_user None s).
Proof. reflexivity. Qed.

Lemma step_auth_some (u : User) (s : App) :
  step (AuthChange (Some u)) s =
  rerender (with_fetches (fetches s ++ [user_id u]) (with_user (Some u) s)).
Proof. reflexivity. Qed.

Lemma step_fetch_data (n : nat) (d : UserProfile) (s : App) :
  n < length (fetches s) →
  step (FetchSettled n (Fulfilled (PgData d))) s =
  rerender (with_loading false (with_profile (Some d)
    (with_fetches (delete n (fetches s)) s))).
Proof.
  intros Hn. apply lookup_lt_is_Some_2 in Hn as [uid Hn].
  unfold step; cbn. by rewrite Hn.
Qed.

Lemma step_fetch_error (n : nat) (k : FailureKind) (s : App) :
  n < length (fetches s) →
  step (FetchSettled n (Fulfilled (PgError k))) s =
  rerender (with_loading false
    (with_toasts (toasts s ++ [ToastError "Failed to load profile data"])
      (with_console (console s ++ ["Error fetching profile:"])
        (with_fetches (delete n (fetches s)) s)))).
Proof.
  intros Hn. apply lookup_lt_is_Some_2 in Hn as [uid Hn].
  unfold step; cbn. by rewrite Hn.
Qed.

Lemma step_fetch_absent (n : nat) (r : Settled PgResult) (s : App) :
  (length (fetches s) ≤ n)%nat → step (FetchSettled n r) s = rerender s.
Proof.
  intros Hn. apply lookup_ge_None_2 in Hn.
  unfold step; cbn. by rewrite Hn.
Qed.

(** A data reply is installed whatever [user] is by now and whichever user
    the query was sent for. *)
Lemma fetch_data_applied (n : nat) (d : UserProfile) (s : App) :
  n < length (fetches s) →
  profile (step (FetchSettled n (Fulfilled (PgData d))) s) = Some d ∧
  loading (step (FetchSettled n (Fulfilled (PgData d))) s) = false.
Proof.
  intros Hn. rewrite step_fetch_data by done. by rerender_keeps.
Qed.

(** ** Absent session *)

Lemma never_signed_in_mount : never_signed_in (mount None).
Proof. by repeat split. Qed.

Lemma never_signed_in_step (e : Event) (s : App) :
  signs_in e = false → never_signed_in s → never_signed_in (step e s).
Proof.
  intros He (Hu & Hp & Hl & Hf & Hfs & Hus).
  destruct s as [u p l f fs us so ts c nv]; cbn in *; subst.
  destruct e as [[u|]|n r| | |name value|now|n r| |r]; try discriminate;
    try (by repeat split).
  destruct so; [by repeat split|].
  destruct r as [[m|]|reason]; by repeat split.
Qed.

Lemma never_signed_in_run (es : list Event) (s : App) :
  Forall (λ e, signs_in e = false) es →
  never_signed_in s → never_signed_in (run es s).
Proof.
  intros Hes. revert s.
  induction Hes as [|e es He _ IH]; intros s Hs; [done|].
  rewrite run_cons. apply IH. by apply never_signed_in_step.
Qed.

(** The loading flag is cleared by nothing but a fetch in flight that
    settles. *)
Lemma loading_cleared_by_fetch_only (e : Event) (s : App) :
  loading s = true → loading (step e s) = false →
  ∃ (n : nat) (r : Settled PgResult), e = FetchSettled n r ∧ n < length (fetches s).
Proof.
  unfold step. rerender_keeps.
  destruct s as [u p l f fs us so ts c nv]; cbn. intros ->.
  destruct e as [[u'|]|n r| | |name value|now|n r| |r]; cbn; try discriminate.
  - destruct (fs !! n) eqn:Hn; [|discriminate].
    intros _. exists n, r. split; [done|]. by eapply lookup_lt_Some.
  - destruct f, p; discriminate.
  - destruct (us !! n); [|discriminate]. by destruct r as [[d|k]|reason].
  - destruct so; [discriminate|]. by destruct r as [[m|]|reason].
Qed.

(** C10: with no user the fetch reaction sends no query and leaves the
    cached profile and the loading flag as they are. The loading flag is
    true at mount and only a settling fetch clears it, so a Dashboard that
    is mounted without a user and never receives one keeps [loading = true]
    and shows the Loading view after every sequence of events. *)
Theorem absent_session_keeps_loading (es : list Event) (s : App) :
  Forall (λ e, signs_in e = false) es →
  (fetches (step (AuthChange None) s) = fetches s ∧
   profile (step (AuthChange None) s) = profile s ∧
   loading (step (AuthChange None) s) = loading s) ∧
  loading (mount None) = true ∧
  (∀ (e : Event) (s0 : App),
     loading s0 = true → loading (step e s0) = false →
     ∃ (n : nat) (r : Settled PgResult),
       e = FetchSettled n r ∧ n < length (fetches s0)) ∧
  loading (run es (mount None)) = true ∧
  render (run es (mount None)) = LoadingView.
Proof.
  intros Hes. split; [|split; [done|split]].
  - rewrite step_auth_none. by rerender_keeps.
  - apply loading_cleared_by_fetch_only.
  - destruct (never_signed_in_run es (mount None) Hes never_signed_in_mount)
      as (_ & _ & Hl & _).
    split; [done|]. unfold render. by rewrite Hl.
Qed.

Lemma absent_session_keeps_loading_witness :
  Forall (λ e, signs_in e = false)
    [AuthChange None; ClickLogout; SignOutSettled (Fulfilled None);
     FetchSettled 0 (Rejected "offline"); OpenDialog] ∧
  render (run [AuthChange None; ClickLogout; SignOutSettled (Fulfilled None);
               FetchSettled 0 (Rejected "offline"); OpenDialog]
              (mount None)) = LoadingView.
Proof.
  split; [repeat constructor|].
  apply (absent_session_keeps_loading _ (mount None)).
  repeat constructor.
Defined.

(** ** Fetches that settle in the order they were sent *)

Lemma settles_to_step (e : Event) (s : App) :
  in_order_event s e →
  settles_to (step e s) =
    match sign_in_of e with
    | Some u => Some (user_id u)
    | None => settles_to s
    end.
Proof.
  destruct e as [[u|]|n [[d|k]|reason]| | | | | | |]; cbn [in_order_event sign_in_of];
    try done; intros He.
  - rewrite step_auth_some. unfold settles_to. rerender_keeps.
    cbn. by rewrite last_snoc.
  - rewrite step_auth_none. unfold settles_to. by rerender_keeps.
  - destruct He as [-> Hhd].
    destruct (fetches s) as [|uid rest] eqn:Hfs; [done|].
    cbn in Hhd. injection Hhd as ->.
    rewrite step_fetch_data by (rewrite Hfs; cbn; lia).
    unfold settles_to. rerender_keeps.
    cbn [with_loading with_profile with_fetches profile fetches].
    rewrite Hfs; cbn [delete list_delete].
    destruct rest as [|uid' rest]; [done|].
    rewrite last_cons_cons.
    destruct (last (uid' :: rest)) eqn:Hlast; [done|].
    by apply last_None in Hlast.
Qed.

Lemma settles_to_run (es : list Event) (s : App) :
  in_order es s →
  settles_to (run es s) =
    match last_sign_in es with
    | Some u => Some (user_id u)
    | None => settles_to s
    end.
Proof.
  revert s. induction es as [|e es IH]; intros s; [done|].
  intros [He Hes]. rewrite run_cons, (IH _ Hes). cbn [last_sign_in].
  destruct (last_sign_in es) as [u|]; [done|].
  by apply settles_to_step.
Qed.

(** ** Single flight *)

(** C1, as stated, fails: Ada's session is replaced by Bob's, Bob's query
    answers first and Ada's second; both answers come from the store, and
    when nothing is in flight any more Dashboard holds Ada's profile under
    Bob's session. *)
Lemma stale_fetch_overwrites_newer_session :
  let s := run [AuthChange (Some bob);
                FetchSettled 1 (Fulfilled (repo_fetch sample_store "u-bob"));
                FetchSettled 0 (Fulfilled (repo_fetch sample_store "u-ada"))]
               (mount (Some ada)) in
  user s = Some bob ∧ fetches s = [] ∧ profile s = Some ada_row ∧
  id ada_row ≠ user_id bob.
Proof. by repeat split. Qed.

(** C1, amended: no reply is dropped, every data reply becomes the cached
    profile when it arrives, whichever session its query was sent for; so
    the profile left when all queries have settled is that of the last
    sign-in provided the queries settle in the order they were sent (each
    with the row asked for). *)
Theorem in_order_fetches_end_on_last_session (es : list Event) (s : App) (u : User) :
  in_order es s → last_sign_in es = Some u → fetches (run es s) = [] →
  id <$> profile (run es s) = Some (user_id u) ∧
  ∀ (s' : App) (n : nat) (d : UserProfile),
    n < length (fetches s') →
    profile (step (FetchSettled n (Fulfilled (PgData d))) s') = Some d.
Proof.
  intros Hes Hu Hfs. split.
  - pose proof (settles_to_run es s Hes) as H.
    rewrite Hu in H. unfold settles_to in H. by rewrite Hfs in H.
  - intros s' n d Hn. by apply fetch_data_applied.
Qed.

Lemma in_order_fetches_end_on_last_session_witness :
  let es := [AuthChange (Some bob);
             FetchSettled 0 (Fulfilled (PgData ada_row));
             FetchSettled 0 (Fulfilled (PgData bob_row))] in
  in_order es (mount (Some ada)) ∧ last_sign_in es = Some bob ∧
  fetches (run es (mount (Some ada))) = [] ∧
  id <$> profile (run es (mount (Some ada))) = Some (user_id bob).
Proof.
  cbv zeta.
  split; [by repeat split|]. split; [reflexivity|]. split; [reflexivity|].
  apply (in_order_fetches_end_on_last_session _ (mount (Some ada)) bob);
    [by repeat split|reflexivity|reflexivity].
Defined.

(** ** Sign-out *)

(** C2, as stated, fails: Ada signs out and [user] becomes [None] while
    Dashboard is still mounted; her cached profile stays and Dashboard
    keeps showing it. And a query still in flight when the session ends
    installs its row afterwards. *)
Lemma sign_out_keeps_profile :
  user (run [ClickLogout; AuthChange None] ada_ready) = None ∧
  profile (run [ClickLogout; AuthChange None] ada_ready) = Some ada_row ∧
  render (run [ClickLogout; AuthChange None] ada_ready) =
    DashboardView "Ada" "Lovelace" "ada@example.org" "2024-01-01T00:00:00.000Z" true ∧
  let s := run [AuthChange None;
                FetchSettled 0 (Fulfilled (repo_fetch sample_store "u-ada"))]
               (mount (Some ada)) in
  user s = None ∧ profile s = Some ada_row ∧ loading s = false.
Proof. by repeat split. Qed.

(** C2, amended: when [user] becomes [None] the reaction sends no query
    and changes neither the cached profile nor the loading flag, nor
    anything else but [user]; a query of the earlier session that answers
    afterwards is applied: its row becomes the cached profile and the
    loading flag is cleared. *)
Theorem sign_out_leaves_state (s : App) :
  step (AuthChange None) s = rerender (with_user None s) ∧
  user (step (AuthChange None) s) = None ∧
  profile (step (AuthChange None) s) = profile s ∧
  loading (step (AuthChange None) s) = loading s ∧
  fetches (step (AuthChange None) s) = fetches s ∧
  ∀ (n : nat) (d : UserProfile),
    n < length (fetches s) →
    profile (run [AuthChange None; FetchSettled n (Fulfilled (PgData d))] s) = Some d ∧
    loading (run [AuthChange None; FetchSettled n (Fulfilled (PgData d))] s) = false.
Proof.
  rewrite step_auth_none.
  destruct (rerender_fields (with_user None s)) as (Hu & Hp & Hl & Hf & _).
  split; [done|]. split; [by rewrite Hu|]. split; [by rewrite Hp|].
  split; [by rewrite Hl|]. split; [by rewrite Hf|].
  intros n d Hn. rewrite !run_cons, step_auth_none. cbn [run foldl].
  apply fetch_data_applied. by rewrite Hf.
Qed.

Lemma sign_out_leaves_state_witness :
  0 < length (fetches (mount (Some ada))) ∧
  profile (run [AuthChange None; FetchSettled 0 (Fulfilled (PgData ada_row))]
               (mount (Some ada))) = Some ada_row.
Proof.
  split; [cbn; lia|].
  apply (sign_out_leaves_state (mount (Some ada))). cbn; lia.
Defined.

(** ** Equations for the edit dialog *)

Lemma mounted_with_form (s : App) (f g : ProfileForm.t) (p : UserProfile) :
  mounted s f p → mounted (with_form (Some g) s) g p.
Proof. by intros (_ & ? & ?). Qed.

Lemma rerender_mounted (s : App) (f : ProfileForm.t) (p : UserProfile) :
  mounted s f p → rerender s = s.
Proof.
  intros (Hf & Hp & Hl).
  destruct s as [u p' l f' fs us so ts c nv]; cbn in *; by subst.
Qed.

Lemma step_form (g : ProfileForm.t → ProfileForm.t) (e : Event)
    (s : App) (f : ProfileForm.t) (p : UserProfile) :
  react e = setForm g → mounted s f p →
  step e s = with_form (Some (g f)) s.
Proof.
  intros He Hm. unfold step. rewrite He.
  pose proof Hm as (Hf & _). cbn. rewrite Hf; cbn.
  by apply (rerender_mounted _ (g f) p), mounted_with_form with f.
Qed.

Lemma step_open (s : App) (f : ProfileForm.t) (p : UserProfile) :
  mounted s f p →
  step OpenDialog s = with_form (Some (ProfileForm.setIsOpen true f)) s.
Proof. by apply step_form. Qed.

Lemma step_close (s : App) (f : ProfileForm.t) (p : UserProfile) :
  mounted s f p →
  step CloseDialog s = with_form (Some (ProfileForm.setIsOpen false f)) s.
Proof. by apply step_form. Qed.

Lemma step_input (name value : string) (s : App) (f : ProfileForm.t) (p : UserProfile) :
  mounted s f p →
  step (InputChange name value) s =
  with_form (Some (ProfileForm.handleInputChange name value f)) s.
Proof. by apply step_form. Qed.

Lemma step_submit (now : string) (s : App) (f : ProfileForm.t) (p : UserProfile) :
  mounted s f p →
  step (SubmitForm now) s =
  with_updates
    (updates s ++ [(id p, ProfileForm.update_patch (ProfileForm.formData f) now)])
    (with_form (Some (ProfileForm.setLoading true f)) s).
Proof.
  intros (Hf & Hp & Hl).
  destruct s as [u p' l f' fs us so ts c nv]; cbn in *; by subst.
Qed.

Lemma step_update_data (n : nat) (d : UserProfile) (s : App)
    (f : ProfileForm.t) (p : UserProfile) :
  mounted s f p → n < length (updates s) →
  step (UpdateSettled n (Fulfilled (PgData d))) s =
  with_form (Some (ProfileForm.setLoading false (ProfileForm.setIsOpen false f)))
    (with_profile (Some d)
      (with_toasts (toasts s ++ [ToastSuccess "Profile updated successfully!"])
        (with_updates (delete n (updates s)) s))).
Proof.
  intros (Hf & Hp & Hl) Hn. apply lookup_lt_is_Some_2 in Hn as [req Hn].
  unfold step; cbn. rewrite Hn; cbn.
  destruct s as [u p' l f' fs us so ts c nv]; cbn in *; by subst.
Qed.

Lemma step_update_error (n : nat) (k : FailureKind) (s : App)
    (f : ProfileForm.t) (p : UserProfile) :
  mounted s f p → n < length (updates s) →
  step (UpdateSettled n (Fulfilled (PgError k))) s =
  with_form (Some (ProfileForm.setLoading false f))
    (with_console (console s ++ ["Error updating profile:"])
      (with_toasts (toasts s ++ [ToastError "Failed to update profile"])
        (with_updates (delete n (updates s)) s))).
Proof.
  intros (Hf & Hp & Hl) Hn. apply lookup_lt_is_Some_2 in Hn as [req Hn].
  unfold step; cbn. rewrite Hn; cbn.
  destruct s as [u p' l f' fs us so ts c nv]; cbn in *; by subst.
Qed.

Lemma step_update_rejected (n : nat) (reason : string) (s : App)
    (f : ProfileForm.t) (p : UserProfile) :
  mounted s f p → n < length (updates s) →
  step (UpdateSettled n (Rejected reason)) s =
  with_form (Some (ProfileForm.setLoading false f))
    (with_console (console s ++ ["Unexpected error:"])
      (with_toasts (toasts s ++ [ToastError "An unexpected error occurred"])
        (with_updates (delete n (updates s)) s))).
Proof.
  intros (Hf & Hp & Hl) Hn. apply lookup_lt_is_Some_2 in Hn as [req Hn].
  unfold step; cbn. rewrite Hn; cbn.
  destruct s as [u p' l f' fs us so ts c nv]; cbn in *; by subst.
Qed.

(** The first row that arrives mounts the form, and the draft is taken
    from that row. *)
Lemma first_fetch_mounts_form (n : nat) (d : UserProfile) (s : App) :
  form s = None → n < length (fetches s) →
  form (step (FetchSettled n (Fulfilled (PgData d))) s) = Some (ProfileForm.init d).
Proof.
  intros Hf Hn. rewrite step_fetch_data by done.
  rewrite rerender_form; cbn. by rewrite Hf.
Qed.

(** While the form is mounted a new row replaces the [profile] prop but
    not the draft. *)
Lemma later_fetch_keeps_form (n : nat) (d : UserProfile) (s : App)
    (f : ProfileForm.t) (p : UserProfile) :
  mounted s f p → n < length (fetches s) →
  form (step (FetchSettled n (Fulfilled (PgData d))) s) = Some f.
Proof.
  intros (Hf & _) Hn. rewrite step_fetch_data by done.
  rewrite rerender_form; cbn. by rewrite Hf.
Qed.

Lemma init_formData (p : UserProfile) :
  ProfileForm.formData (ProfileForm.init p) !! "first_name" = Some (js_or (first_name p) "") ∧
  ProfileForm.formData (ProfileForm.init p) !! "last_name" = Some (js_or (last_name p) "") ∧
  ProfileForm.formData (ProfileForm.init p) !! "email" = Some (js_or (email p) "").
Proof. unfold ProfileForm.init; cbn. by simplify_map_eq. Qed.

(** While the form stays mounted, only typing changes the draft. *)
Lemma draft_changes_only_by_input (e : Event) (s : App)
    (f : ProfileForm.t) (p : UserProfile) :
  mounted s f p →
  ∃ f' : ProfileForm.t,
    form (step e s) = Some f' ∧
    ProfileForm.formData f' =
      match e with
      | InputChange name value => <[name := value]> (ProfileForm.formData f)
      | _ => ProfileForm.formData f
      end.
Proof.
  intros (Hf & Hp & Hl). unfold step. rewrite rerender_form.
  destruct s as [u p' l f' fs us so ts c nv]; cbn in *; subst.
  destruct e as [[u'|]|n r| | |name value|now|n r| |r]; cbn; eauto.
  - destruct (fs !! n); [|by eauto]. destruct r as [[d|k]|reason]; cbn; eauto.
  - destruct (us !! n); [|by eauto]. destruct r as [[d|k]|reason]; cbn; eauto.
  - destruct so; [by eauto|]. destruct r as [[m|]|reason]; cbn; eauto.
Qed.

(** ** The update request *)

(** The patch has the draft's two name fields and the client's clock
    reading, and no other column. *)
Lemma update_patch_lookup (fd : gmap string string) (now k : string) :
  ProfileForm.update_patch fd now !! k =
    if decide (k = "first_name") then fd !! "first_name"
    else if decide (k = "last_name") then fd !! "last_name"
    else if decide (k = "updated_at") then Some now
    else None.
Proof.
  unfold ProfileForm.update_patch, ProfileForm.with_field.
  destruct (fd !! "first_name") eqn:H1, (fd !! "last_name") eqn:H2;
    repeat case_decide; by simplify_map_eq.
Qed.

Lemma apply_patch_update (fd : gmap string string) (now : string) (row : UserProfile) :
  apply_patch (ProfileForm.update_patch fd now) row =
  {| id := id row;
     first_name := match fd !! "first_name" with Some v => Some v | None => first_name row end;
     last_name := match fd !! "last_name" with Some v => Some v | None => last_name row end;
     email := email row;
     created_at := created_at row;
     updated_at := now |}.
Proof. unfold apply_patch. by rewrite !update_patch_lookup. Qed.

(** Opening the dialog, typing into one input and submitting. *)
Lemma edit_and_submit (name value now : string) (s : App)
    (f : ProfileForm.t) (p : UserProfile) :
  mounted s f p →
  run [OpenDialog; InputChange name value; SubmitForm now] s =
  with_updates
    (updates s ++
       [(id p, ProfileForm.update_patch (<[name := value]> (ProfileForm.formData f)) now)])
    (with_form
       (Some (ProfileForm.setLoading true
          (ProfileForm.handleInputChange name value (ProfileForm.setIsOpen true f)))) s).
Proof.
  intros Hm. rewrite !run_cons.
  rewrite (step_open s f p) by done.
  eapply mounted_with_form in Hm.
  rewrite (step_input _ _ _ _ p) by exact Hm.
  eapply mounted_with_form in Hm.
  rewrite (step_submit _ _ _ p) by exact Hm.
  reflexivity.
Qed.

Lemma lookup_snoc_length {A} (l : list A) (x : A) : (l ++ [x]) !! length l = Some x.
Proof. by rewrite lookup_app_r, Nat.sub_diag. Qed.

Lemma delete_snoc_length {A} (l : list A) (x : A) : delete (length l) (l ++ [x]) = l.
Proof. by rewrite delete_middle, app_nil_r. Qed.

(** ** Edit round trip *)

(** C3: from any state in which the form is mounted on profile [p], open
    the dialog, type [v] into the first-name input and submit. The request
    goes to row [id p] with [first_name = v]; when the store (which has the
    row) answers with the updated row [p'], that row becomes Dashboard's
    profile through [handleProfileUpdate], with [first_name p' = Some v];
    no query is sent, the dialog is closed, and the success toast is the
    one notification. *)
Theorem edit_round_trip (v now : string) (s : App) (f : ProfileForm.t)
    (p row : UserProfile) (store : gmap string UserProfile) :
  mounted s f p → store !! id p = Some row →
  let s3 := run [OpenDialog; InputChange "first_name" v; SubmitForm now] s in
  ∃ (patch : Patch) (p' : UserProfile),
    updates s3 = updates s ++ [(id p, patch)] ∧
    patch !! "first_name" = Some v ∧
    fst (repo_update store (id p) patch) = PgData p' ∧
    first_name p' = Some v ∧
    let s4 := step (UpdateSettled (length (updates s)) (Fulfilled (PgData p'))) s3 in
    profile s4 = Some p' ∧
    ProfileForm.isOpen <$> form s4 = Some false ∧
    ProfileForm.loading <$> form s4 = Some false ∧
    toasts s4 = toasts s ++ [ToastSuccess "Profile updated successfully!"] ∧
    fetches s4 = fetches s ∧
    updates s4 = updates s.
Proof.
  intros Hm Hrow s3. subst s3. rewrite (edit_and_submit _ _ _ _ f p) by done.
  set (fd := <["first_name" := v]> (ProfileForm.formData f)).
  set (f3 := ProfileForm.setLoading true _).
  exists (ProfileForm.update_patch fd now), (apply_patch (ProfileForm.update_patch fd now) row).
  assert (Hfd : fd !! "first_name" = Some v) by (subst fd; by simplify_map_eq).
  split; [done|].
  split; [by rewrite update_patch_lookup|].
  split; [unfold repo_update; by rewrite Hrow|].
  split; [by rewrite apply_patch_update, Hfd|].
  intros s4. subst s4.
  rewrite (step_update_data _ _ _ f3 p).
  - cbn. by rewrite delete_snoc_length.
  - destruct Hm as (_ & ? & ?). by repeat split.
  - cbn. rewrite length_app; cbn. lia.
Qed.

Lemma edit_round_trip_witness :
  mounted ada_ready (ProfileForm.init ada_row) ada_row ∧
  sample_store !! id ada_row = Some ada_row ∧
  ∃ (patch : Patch) (p' : UserProfile),
    updates (run [OpenDialog; InputChange "first_name" "Augusta";
                  SubmitForm "2025-07-01T00:00:00.000Z"] ada_ready) =
      [(id ada_row, patch)] ∧
    fst (repo_update sample_store (id ada_row) patch) = PgData p' ∧
    first_name p' = Some "Augusta".
Proof.
  split; [by repeat split|]. split; [reflexivity|].
  destruct (edit_round_trip "Augusta" "2025-07-01T00:00:00.000Z" ada_ready
              (ProfileForm.init ada_row) ada_row ada_row sample_store)
    as (patch & p' & Hup & _ & Hrepo & Hfirst & _);
    [by repeat split|reflexivity|].
  by exists patch, p'.
Defined.

(** ** Failed submit *)

(** Dashboard's profile is not touched when a request is sent. *)
Lemma submit_keeps_profile (now : string) (s : App) :
  profile (step (SubmitForm now) s) = profile s.
Proof.
  unfold step.
  destruct (rerender_fields (snd (react (SubmitForm now) s))) as (_ & Hp & _).
  rewrite Hp. destruct s as [u [p|] l [f|] fs us so ts c nv]; reflexivity.
Qed.

(** C4, as stated, fails: Cancel stays enabled while the update is in
    flight. Ada presses Save and then Cancel; the session is saving, with
    its update in flight, when the update fails, and afterwards the dialog
    is closed, not open. *)
Lemma failed_update_after_cancel_stays_closed :
  let s := run [CloseDialog] ada_saving in
  ProfileForm.loading <$> form s = Some true ∧
  length (updates s) = 1 ∧
  ProfileForm.isOpen <$>
    form (step (UpdateSettled 0 (Fulfilled (PgError TransientError))) s) = Some false ∧
  ProfileForm.loading <$>
    form (step (UpdateSettled 0 (Fulfilled (PgError TransientError))) s) = Some false.
Proof. by repeat split. Qed.

(** C4, amended: an update of a mounted form is in flight and fails, with
    whatever error or by a rejected promise. The handler does not touch
    [isOpen]: the dialog is open afterwards if it was open, and closed if
    the user closed it meanwhile. The saving flag is cleared, the draft is
    what it was, one error toast has been added, and Dashboard's profile is
    untouched (as it was by the submit itself). In particular a session
    that is open and not saving, is submitted and fails at once is open and
    not saving again, with the same draft and profile. *)
Theorem failed_update_keeps_dialog_and_draft (n : nat) (r : Settled PgResult)
    (s : App) (f : ProfileForm.t) (p : UserProfile) :
  mounted s f p → n < length (updates s) → failed r →
  let s' := step (UpdateSettled n r) s in
  ProfileForm.isOpen <$> form s' = Some (ProfileForm.isOpen f) ∧
  ProfileForm.loading <$> form s' = Some false ∧
  ProfileForm.formData <$> form s' = Some (ProfileForm.formData f) ∧
  (∃ m, toasts s' = toasts s ++ [ToastError m]) ∧
  profile s' = profile s ∧
  fetches s' = fetches s ∧
  (∀ (now : string) (s0 : App), profile (step (SubmitForm now) s0) = profile s0) ∧
  ∀ (now : string) (s0 : App) (f0 : ProfileForm.t) (p0 : UserProfile),
    mounted s0 f0 p0 →
    ProfileForm.isOpen f0 = true → ProfileForm.loading f0 = false →
    form (run [SubmitForm now; UpdateSettled (length (updates s0)) r] s0) = Some f0 ∧
    profile (run [SubmitForm now; UpdateSettled (length (updates s0)) r] s0) = profile s0 ∧
    updates (run [SubmitForm now; UpdateSettled (length (updates s0)) r] s0) = updates s0.
Proof.
  intros Hm Hn Hr s'. subst s'.
  assert (∀ s1 f1 p1 n1, mounted s1 f1 p1 → n1 < length (updates s1) →
            ∃ m c, step (UpdateSettled n1 r) s1 =
              with_form (Some (ProfileForm.setLoading false f1))
                (with_console c
                  (with_toasts (toasts s1 ++ [ToastError m])
                    (with_updates (delete n1 (updates s1)) s1)))) as Hfail.
  { intros s1 f1 p1 n1 Hm1 Hn1. destruct r as [[d|k]|reason]; [done| |].
    - eexists _, _. by apply step_update_error with p1.
    - eexists _, _. by apply step_update_rejected with p1. }
  destruct (Hfail s f p n Hm Hn) as (m & c & ->).
  do 3 (split; [done|]). split; [by eexists|]. do 2 (split; [done|]).
  split; [apply submit_keeps_profile|].
  intros now s0 f0 p0 Hm0 Hopen Hidle.
  rewrite !run_cons. cbn [run foldl].
  rewrite (step_submit now s0 f0 p0) by done.
  set (s1 := with_updates _ _).
  destruct (Hfail s1 (ProfileForm.setLoading true f0) p0 (length (updates s0)))
    as (m0 & c0 & ->).
  { destruct Hm0 as (_ & ? & ?). by repeat split. }
  { subst s1. cbn. rewrite length_app; cbn. lia. }
  subst s1. cbn. rewrite delete_snoc_length.
  destruct f0 as [o l fd]; cbn in *. subst.
  by destruct Hm0 as (_ & ? & _).
Qed.

Lemma failed_update_keeps_dialog_and_draft_witness :
  mounted ada_saving ada_saving_form ada_row ∧
  0 < length (updates ada_saving) ∧
  failed (Fulfilled (PgError TransientError)) ∧
  ProfileForm.isOpen ada_saving_form = true ∧
  ProfileForm.formData ada_saving_form !! "first_name" = Some "Augusta" ∧
  ProfileForm.isOpen <$>
    form (step (UpdateSettled 0 (Fulfilled (PgError TransientError))) ada_saving)
    = Some true ∧
  ProfileForm.formData <$>
    form (step (UpdateSettled 0 (Fulfilled (PgError TransientError))) ada_saving)
    = Some (ProfileForm.formData ada_saving_form) ∧
  profile (step (UpdateSettled 0 (Fulfilled (PgError TransientError))) ada_saving)
    = Some ada_row.
Proof.
  split; [by repeat split|]. split; [vm_compute; lia|]. split; [exact I|].
  split; [reflexivity|]. split; [reflexivity|].
  destruct (failed_update_keeps_dialog_and_draft 0 (Fulfilled (PgError TransientError))
              ada_saving ada_saving_form ada_row)
    as (Hopen & _ & Hfd & _ & Hp & _);
    [by repeat split|vm_compute; lia|exact I|].
  split; [exact Hopen|]. split; [exact Hfd|exact Hp].
Defined.

(** ** Cancel and reopen *)

(** C8, as stated, fails: a value typed before Cancel is still in the draft
    when the dialog is opened again, although the profile says otherwise. *)
Lemma reopened_dialog_shows_cancelled_draft :
  let s := run [OpenDialog; InputChange "first_name" "Zed"; CloseDialog; OpenDialog]
               ada_ready in
  profile s = Some ada_row ∧
  (form s ≫= λ f, ProfileForm.formData f !! "first_name") = Some "Zed" ∧
  js_or (first_name ada_row) "" = "Ada".
Proof. by repeat split. Qed.

(** C8, amended: Cancel only clears [isOpen]; the draft stays, nothing else
    in the application changes, and opening the dialog again sets [isOpen]
    and shows that same draft. No event but typing into an input changes
    the draft of a mounted form. The draft is taken from the profile's
    [first_name]/[last_name] (the empty string when absent) once, when the
    form is mounted by the first row that arrives. *)
Theorem cancel_keeps_draft (s : App) (f : ProfileForm.t) (p : UserProfile) :
  mounted s f p →
  step CloseDialog s = with_form (Some (ProfileForm.setIsOpen false f)) s ∧
  step OpenDialog (step CloseDialog s) =
    with_form (Some (ProfileForm.setIsOpen true f)) s ∧
  ProfileForm.formData <$> form (step OpenDialog (step CloseDialog s)) =
    Some (ProfileForm.formData f) ∧
  (∀ e : Event, ∃ f' : ProfileForm.t,
     form (step e s) = Some f' ∧
     ProfileForm.formData f' =
       match e with
       | InputChange name value => <[name := value]> (ProfileForm.formData f)
       | _ => ProfileForm.formData f
       end) ∧
  ∀ (s0 : App) (n : nat) (d : UserProfile),
    form s0 = None → n < length (fetches s0) →
    ∃ f0, form (step (FetchSettled n (Fulfilled (PgData d))) s0) = Some f0 ∧
          ProfileForm.isOpen f0 = false ∧
          ProfileForm.formData f0 !! "first_name" = Some (js_or (first_name d) "") ∧
          ProfileForm.formData f0 !! "last_name" = Some (js_or (last_name d) "").
Proof.
  intros Hm.
  split; [by apply step_close with p|].
  split; [|split; [|split]].
  - rewrite (step_close s f p) by done.
    by rewrite (step_open _ (ProfileForm.setIsOpen false f) p)
      by (by apply mounted_with_form with f).
  - rewrite (step_close s f p) by done.
    by rewrite (step_open _ (ProfileForm.setIsOpen false f) p)
      by (by apply mounted_with_form with f).
  - intros e. by apply draft_changes_only_by_input with p.
  - intros s0 n d Hf Hn. exists (ProfileForm.init d).
    rewrite first_fetch_mounts_form by done.
    destruct (init_formData d) as (? & ? & _). done.
Qed.

Lemma cancel_keeps_draft_witness :
  mounted ada_editing ada_editing_form ada_row ∧
  ProfileForm.formData ada_editing_form !! "first_name" = Some "Zed" ∧
  ProfileForm.formData <$> form (step OpenDialog (step CloseDialog ada_editing)) =
    Some (ProfileForm.formData ada_editing_form).
Proof.
  split; [by repeat split|]. split; [reflexivity|].
  apply (cancel_keeps_draft ada_editing ada_editing_form ada_row).
  by repeat split.
Defined.

(** ** Who sets [updated_at] *)

(** C5, as stated, fails: the patch Ada's form sends carries [updated_at],
    the clock reading of her browser, here one that is behind the
    [updated_at] of the profile she has on screen. *)
Lemma client_clock_sets_updated_at :
  let now := "2020-01-01T00:00:00.000Z" in
  let patch := ProfileForm.update_patch (ProfileForm.formData (ProfileForm.init ada_row)) now in
  updates (run [OpenDialog; SubmitForm now] ada_ready) = [("u-ada", patch)] ∧
  patch !! "updated_at" = Some now ∧
  (profile (run [OpenDialog; SubmitForm now] ada_ready) ≫= λ p,
     Some (String.ltb now (updated_at p))) = Some true.
Proof. by repeat split. Qed.

(** The cached profile changes only by a row that a fetch or an update
    brought back. *)
Lemma profile_changes_by_reply_only (e : Event) (s : App) :
  profile (step e s) = profile s ∨
  ∃ (n : nat) (d : UserProfile),
    (e = FetchSettled n (Fulfilled (PgData d)) ∨
     e = UpdateSettled n (Fulfilled (PgData d))) ∧
    profile (step e s) = Some d.
Proof.
  unfold step. rerender_keeps.
  destruct s as [u p l f fs us so ts c nv].
  destruct e as [[u'|]|n r| | |name value|now|n r| |r]; cbn; try (by left).
  - destruct (fs !! n); [|by left].
    destruct r as [[d|k]|reason]; cbn; [right|by left|by left].
    exists n, d. by split; [left|].
  - destruct f, p; by left.
  - destruct (us !! n); [|by left].
    destruct r as [[d|k]|reason]; cbn; [right|by left|by left].
    exists n, d. by split; [right|].
  - destruct so; [by left|]. destruct r as [[m|]|reason]; by left.
Qed.

(** C5, amended: every update patch the client sends contains
    [updated_at], and its value is the client's clock reading taken at
    submit. The profile installed after a successful update is the row the
    reply carries, with the [updated_at] of that row. And the client never
    changes the cached profile, [updated_at] included, in any other way
    than by installing the row of a fetch or update reply. *)
Theorem update_patch_carries_client_clock (now : string) (s : App)
    (f : ProfileForm.t) (p : UserProfile) :
  mounted s f p →
  let patch := ProfileForm.update_patch (ProfileForm.formData f) now in
  let s1 := step (SubmitForm now) s in
  updates s1 = updates s ++ [(id p, patch)] ∧
  patch !! "updated_at" = Some now ∧
  (∀ d : UserProfile,
     profile (step (UpdateSettled (length (updates s)) (Fulfilled (PgData d))) s1) = Some d ∧
     updated_at <$>
       profile (step (UpdateSettled (length (updates s)) (Fulfilled (PgData d))) s1)
       = Some (updated_at d)) ∧
  ∀ (e : Event) (s0 : App),
    profile (step e s0) = profile s0 ∨
    ∃ (n : nat) (d : UserProfile),
      (e = FetchSettled n (Fulfilled (PgData d)) ∨
       e = UpdateSettled n (Fulfilled (PgData d))) ∧
      profile (step e s0) = Some d.
Proof.
  intros Hm patch s1. subst patch s1.
  rewrite (step_submit now s f p) by done.
  split; [done|].
  split; [by rewrite update_patch_lookup|].
  split; [|apply profile_changes_by_reply_only].
  intros d.
  rewrite (step_update_data _ _ _ (ProfileForm.setLoading true f) p).
  - done.
  - destruct Hm as (_ & ? & ?). by repeat split.
  - cbn. rewrite length_app; cbn. lia.
Qed.

Lemma update_patch_carries_client_clock_witness :
  let now := "2025-07-01T00:00:00.000Z" in
  mounted ada_ready (ProfileForm.init ada_row) ada_row ∧
  ProfileForm.update_patch (ProfileForm.formData (ProfileForm.init ada_row)) now
    !! "updated_at" = Some now.
Proof.
  cbv zeta.
  split; [by repeat split|].
  apply (update_patch_carries_client_clock "2025-07-01T00:00:00.000Z" ada_ready
           (ProfileForm.init ada_row) ada_row).
  by repeat split.
Defined.

(** ** The e-mail column *)

(** C6, as stated, fails: besides the two name fields the patch has a
    third column, [updated_at]. *)
Lemma update_patch_has_third_column :
  let patch := ProfileForm.update_patch (ProfileForm.formData (ProfileForm.init ada_row))
                 "2025-07-01T00:00:00.000Z" in
  "updated_at" ∈ dom patch ∧ ¬ dom patch ⊆ ({["first_name"; "last_name"]} : gset string).
Proof.
  cbv zeta.
  assert ("updated_at" ∈ dom (ProfileForm.update_patch
            (ProfileForm.formData (ProfileForm.init ada_row)) "2025-07-01T00:00:00.000Z")) as H.
  { apply elem_of_dom. rewrite update_patch_lookup. by eexists. }
  split; [done|]. intros Hsub. apply Hsub in H.
  apply elem_of_union in H as [H|H]; by apply elem_of_singleton in H.
Qed.

(** C6, amended: the patch passed to the update has no column besides
    [first_name], [last_name] and [updated_at], in particular never
    [email], whatever the draft holds (also after an edit of its [email]
    entry); so the update leaves the [email] of every stored row as it
    was. *)
Theorem update_never_sends_email (now uid : string) (s : App)
    (f : ProfileForm.t) (p : UserProfile) (store : gmap string UserProfile) :
  mounted s f p →
  let patch := ProfileForm.update_patch (ProfileForm.formData f) now in
  updates (step (SubmitForm now) s) = updates s ++ [(id p, patch)] ∧
  dom patch ⊆ ({["first_name"; "last_name"; "updated_at"]} : gset string) ∧
  patch !! "email" = None ∧
  (∀ v : string,
     ProfileForm.update_patch
       (ProfileForm.formData (ProfileForm.handleInputChange "email" v f)) now
       !! "email" = None) ∧
  email <$> snd (repo_update store (id p) patch) !! uid = email <$> store !! uid.
Proof.
  intros Hm patch. subst patch.
  rewrite (step_submit now s f p) by done.
  split; [done|]. split.
  { intros k Hk. apply elem_of_dom in Hk as [x Hk].
    rewrite update_patch_lookup in Hk.
    repeat case_decide; subst; try set_solver. }
  split; [by rewrite update_patch_lookup|].
  split; [intros v; by rewrite update_patch_lookup|].
  unfold repo_update. destruct (store !! id p) as [row|] eqn:Hrow; cbn; [|done].
  destruct (decide (uid = id p)) as [->|Hne].
  - by rewrite lookup_insert_eq, Hrow, apply_patch_update.
  - by rewrite lookup_insert_ne.
Qed.

Lemma update_never_sends_email_witness :
  mounted ada_editing ada_editing_form ada_row ∧
  email <$> snd (repo_update sample_store (id ada_row)
                   (ProfileForm.update_patch (ProfileForm.formData ada_editing_form)
                      "2025-07-01T00:00:00.000Z")) !! "u-ada"
    = email <$> sample_store !! "u-ada".
Proof.
  split; [by repeat split|].
  apply (update_never_sends_email "2025-07-01T00:00:00.000Z" "u-ada" ada_editing
           ada_editing_form ada_row sample_store).
  by repeat split.
Defined.

(** ** Failed fetch *)

(** C7, as stated, fails: a fetch that fails with [NotFound] and one that
    fails with [TransientError] leave the application in one and the same
    state, sink included; that state is no error state but the dashboard
    with its defaults. *)
Lemma fetch_failure_kinds_not_distinguished :
  step (FetchSettled 0 (Fulfilled (PgError NotFound))) (mount (Some ada)) =
  step (FetchSettled 0 (Fulfilled (PgError TransientError))) (mount (Some ada)) ∧
  render (step (FetchSettled 0 (Fulfilled (PgError NotFound))) (mount (Some ada))) =
  DashboardView "User" "" "ada@example.org" "2024-01-01T00:00:00.000Z" false.
Proof. by split. Qed.

(** C7, amended: when a query in flight comes back with an error of any
    kind, the loading flag is cleared, the cached profile is kept, and the
    message "Failed to load profile data" goes to the notification sink;
    the resulting state is the same for every failure kind. However the
    query settles, the handler returns normally. *)
Theorem fetch_error_reported (n : nat) (k : FailureKind) (s : App) :
  n < length (fetches s) →
  let s' := step (FetchSettled n (Fulfilled (PgError k))) s in
  loading s' = false ∧
  profile s' = profile s ∧
  toasts s' = toasts s ++ [ToastError "Failed to load profile data"] ∧
  (∀ k' : FailureKind, step (FetchSettled n (Fulfilled (PgError k'))) s = s') ∧
  ∀ r : Settled PgResult, fst (react (FetchSettled n r) s) = Returned tt.
Proof.
  intros Hn s'. subst s'.
  split; [|split; [|split; [|split]]].
  - rewrite step_fetch_error by done. by rerender_keeps.
  - rewrite step_fetch_error by done. by rerender_keeps.
  - rewrite step_fetch_error by done. by rerender_keeps.
  - intros k'. by rewrite !step_fetch_error.
  - intros r. apply react_returns.
Qed.

Lemma fetch_error_reported_witness :
  0 < length (fetches (mount (Some ada))) ∧
  toasts (step (FetchSettled 0 (Fulfilled (PgError NotFound))) (mount (Some ada))) =
    [ToastError "Failed to load profile data"].
Proof.
  split; [vm_compute; lia|].
  apply (fetch_error_reported 0 NotFound (mount (Some ada))).
  vm_compute; lia.
Defined.

(** ** Navigation *)

Lemma nav_step (e : Event) (s : App) :
  nav (step e s) = if logout_succeeds e s then nav s ++ ["/"] else nav s.
Proof.
  unfold step.
  destruct (rerender_fields (snd (react e s))) as (_ & _ & _ & _ & _ & _ & _ & _ & ->).
  destruct s as [u p l f fs us so ts c nv].
  destruct e as [[u'|]|n r| | |name value|now|n r| |r]; cbn; try reflexivity.
  - destruct (fs !! n); [|done]. by destruct r as [[d|k]|reason].
  - by destruct f, p.
  - destruct (us !! n); [|done]. by destruct r as [[d|k]|reason].
  - destruct so; [by destruct r as [[m|]|reason]|].
    by destruct r as [[m|]|reason].
Qed.

(** C9, as stated, fails: Dashboard shows Ada's profile and the session
    ends ([user] becomes [None]); no [navigate] call is made. *)
Lemma session_end_does_not_redirect :
  user (step (AuthChange None) ada_ready) = None ∧
  nav (step (AuthChange None) ada_ready) = [].
Proof. by split. Qed.

Lemma Index_effect_spec (a : AuthContext) :
  Index_effect a =
    if decide (auth_loading a = false ∧ is_Some (auth_user a))
    then ["/dashboard"] else [].
Proof.
  unfold Index_effect.
  destruct a as [[u|] []]; cbn; case_decide as H; try done.
  - by destruct H.
  - exfalso. apply H. by eauto.
  - by destruct H.
  - destruct H as [_ H]. by apply is_Some_None in H.
Qed.

(** C9, amended: the landing page redirects to the dashboard exactly when
    the auth context has finished loading and holds a user, and makes no
    [navigate] call (showing its waiting view) while it is loading.
    Dashboard makes no redirect on a session change; it navigates to the
    landing page exactly when a sign-out it started returns without an
    error. *)
Theorem redirects (a : AuthContext) (e : Event) (s : App) :
  (Index_effect a = ["/dashboard"] ↔ auth_loading a = false ∧ is_Some (auth_user a)) ∧
  (Index_effect a = [] ↔ ¬ (auth_loading a = false ∧ is_Some (auth_user a))) ∧
  (auth_loading a = true → Index_effect a = [] ∧ Index_render a = IndexLoading) ∧
  (∀ u : option User, nav (step (AuthChange u) s) = nav s) ∧
  nav (step e s) = if logout_succeeds e s then nav s ++ ["/"] else nav s.
Proof.
  split; [|split; [|split; [|split]]].
  - rewrite Index_effect_spec. by case_decide.
  - rewrite Index_effect_spec. by case_decide.
  - intros Hl. unfold Index_effect, Index_render. by rewrite Hl.
  - intros u. by rewrite nav_step.
  - apply nav_step.
Qed.

Lemma redirects_witness :
  auth_loading (mkAuth (Some ada) true) = true ∧
  Index_effect (mkAuth (Some ada) true) = [] ∧
  (auth_loading (mkAuth (Some ada) false) = false ∧
   is_Some (auth_user (mkAuth (Some ada) false))) ∧
  Index_effect (mkAuth (Some ada) false) = ["/dashboard"] ∧
  nav (run [ClickLogout; SignOutSettled (Fulfilled None)] ada_ready) = ["/"].
Proof.
  split; [reflexivity|]. split.
  { destruct (redirects (mkAuth (Some ada) true) ClickLogout ada_ready)
      as (_ & _ & Hpending & _).
    apply Hpending. reflexivity. }
  split; [split; [reflexivity|by eexists]|]. split.
  { destruct (redirects (mkAuth (Some ada) false) ClickLogout ada_ready)
      as (Hsettled & _).
    apply Hsettled. split; [reflexivity|by eexists]. }
  rewrite run_cons. cbn [run foldl].
  destruct (redirects (mkAuth None false) (SignOutSettled (Fulfilled None))
              (step ClickLogout ada_ready)) as (_ & _ & _ & _ & ->).
  reflexivity.
Defined.

(** * Further properties of the components *)

Lemma run_app (es1 es2 : list Event) (s : App) :
  run (es1 ++ es2) s = run es2 (run es1 s).
Proof. unfold run. apply foldl_app. Qed.

(** ** Exceptions *)

(** X1: whatever the event and the state, the handler it runs returns
    normally: a rejected [await] in [fetchProfile], [handleSubmit] or
    [handleLogout] is caught inside the handler. *)
Theorem handlers_catch_everything (e : Event) (s : App) :
  fst (react e s) = Returned tt ∧
  ∀ reason : string,
    fst (fetchProfile_resume (Rejected reason) s) = Returned tt ∧
    fst (handleSubmit_resume (Rejected reason) s) = Returned tt ∧
    fst (handleLogout_resume (Rejected reason) s) = Returned tt.
Proof. split; [apply react_returns|]. by intros. Qed.

(** ** The Loading view *)

Lemma loading_kept_without_fetch (es : list Event) (s : App) :
  Forall (λ e, settles_fetch e = false) es →
  loading s = true → loading (run es s) = true.
Proof.
  intros Hes. revert s.
  induction Hes as [|e es He _ IH]; intros s Hl; [done|].
  rewrite run_cons. apply IH.
  destruct (loading (step e s)) eqn:Hl'; [done|].
  destruct (loading_cleared_by_fetch_only e s Hl Hl') as (n & r & -> & _).
  discriminate.
Qed.

(** X2: Dashboard, mounted with or without a user, shows the Loading view
    until a fetch settles: no session change, click, keystroke, update
    reply or sign-out reply ends it. *)
Theorem loading_view_until_fetch_settles (u : option User) (es : list Event) :
  Forall (λ e, settles_fetch e = false) es →
  loading (run es (mount u)) = true ∧
  render (run es (mount u)) = LoadingView ∧
  form (run es (mount u)) = None.
Proof.
  intros Hes.
  assert (loading (run es (mount u)) = true) as Hl.
  { apply loading_kept_without_fetch; [done|]. by destruct u. }
  split; [done|]. split; [unfold render; by rewrite Hl|].
  destruct es as [|e es _] using rev_ind; [by destruct u|].
  rewrite run_app in *. cbn [run foldl] in *.
  unfold step in *. rewrite rerender_form.
  revert Hl. rerender_keeps. by intros ->.
Qed.

Lemma loading_view_until_fetch_settles_witness :
  Forall (λ e, settles_fetch e = false)
    [AuthChange (Some bob); OpenDialog; ClickLogout; SignOutSettled (Rejected "offline")] ∧
  render (run [AuthChange (Some bob); OpenDialog; ClickLogout;
               SignOutSettled (Rejected "offline")] (mount (Some ada))) = LoadingView.
Proof.
  split; [repeat constructor|].
  apply (loading_view_until_fetch_settles (Some ada)). repeat constructor.
Defined.

(** X3: a fetch in flight that settles, with a row, with an error or by a
    rejected promise, clears the loading flag (the [finally] block), leaves
    the Loading view and is no longer in flight. *)
Theorem any_settled_fetch_ends_loading (n : nat) (r : Settled PgResult) (s : App) :
  n < length (fetches s) →
  loading (step (FetchSettled n r) s) = false ∧
  render (step (FetchSettled n r) s) ≠ LoadingView ∧
  fetches (step (FetchSettled n r) s) = delete n (fetches s).
Proof.
  intros Hn. apply lookup_lt_is_Some_2 in Hn as [uid Hn].
  assert (loading (step (FetchSettled n r) s) = false ∧
          fetches (step (FetchSettled n r) s) = delete n (fetches s)) as [Hl Hf].
  { unfold step. rerender_keeps. cbn. rewrite Hn.
    by destruct r as [[d|k]|reason]. }
  split; [done|]. split; [|done]. unfold render. by rewrite Hl.
Qed.

Lemma any_settled_fetch_ends_loading_witness :
  0 < length (fetches (mount (Some ada))) ∧
  loading (step (FetchSettled 0 (Rejected "offline")) (mount (Some ada))) = false.
Proof.
  split; [vm_compute; lia|].
  apply (any_settled_fetch_ends_loading 0 (Rejected "offline") (mount (Some ada))).
  vm_compute; lia.
Defined.

Lemma loaded_step (e : Event) (s : App) :
  loading s = false → loading (step e s) = false.
Proof.
  unfold step. rerender_keeps.
  destruct s as [u p l f fs us so ts c nv]; cbn. intros ->.
  destruct e as [[u'|]|n r| | |name value|now|n r| |r]; cbn; try done.
  - destruct (fs !! n); [|done]. by destruct r as [[d|k]|reason].
  - by destruct f, p.
  - destruct (us !! n); [|done]. by destruct r as [[d|k]|reason].
  - destruct so; [done|]. by destruct r as [[m|]|reason].
Qed.

Lemma profile_kept_step (e : Event) (s : App) :
  is_Some (profile s) → is_Some (profile (step e s)).
Proof.
  unfold step. rerender_keeps.
  destruct s as [u p l f fs us so ts c nv]; cbn. intros Hp.
  destruct e as [[u'|]|n r| | |name value|now|n r| |r]; cbn; try done.
  - destruct (fs !! n); [|done]. by destruct r as [[d|k]|reason].
  - by destruct f, p.
  - destruct (us !! n); [|done]. by destruct r as [[d|k]|reason].
  - destruct so; [done|]. by destruct r as [[m|]|reason].
Qed.

(** X4: Dashboard never goes back. Once the loading flag is cleared no
    sequence of events sets it again, not even a sign-in that starts a new
    fetch; and a cached profile is replaced but never cleared; so once the
    profile form is on screen it stays mounted. *)
Theorem dashboard_never_goes_back (es : list Event) (s : App) :
  (loading s = false → loading (run es s) = false) ∧
  (is_Some (profile s) → is_Some (profile (run es s))) ∧
  (loading s = false → is_Some (profile s) → is_Some (form s) →
   is_Some (form (run es s))).
Proof.
  revert s. induction es as [|e es IH]; intros s; [done|].
  rewrite run_cons. destruct (IH (step e s)) as (IHl & IHp & IHf).
  split; [|split].
  - intros Hl. by apply IHl, loaded_step.
  - intros Hp. by apply IHp, profile_kept_step.
  - intros Hl Hp Hf.
    pose proof (loaded_step e s Hl) as Hl'.
    pose proof (profile_kept_step e s Hp) as Hp'.
    apply IHf; [done|done|].
    unfold step in *. rewrite rerender_form.
    revert Hl' Hp'. rerender_keeps. intros -> [p' ->]. by eexists.
Qed.

Lemma dashboard_never_goes_back_witness :
  loading ada_ready = false ∧ is_Some (profile ada_ready) ∧ is_Some (form ada_ready) ∧
  loading (run [AuthChange None; AuthChange (Some bob)] ada_ready) = false ∧
  is_Some (profile (run [AuthChange None; AuthChange (Some bob)] ada_ready)) ∧
  is_Some (form (run [AuthChange None; AuthChange (Some bob)] ada_ready)).
Proof.
  split; [reflexivity|]. split; [by eexists|]. split; [by eexists|].
  destruct (dashboard_never_goes_back [AuthChange None; AuthChange (Some bob)] ada_ready)
    as (Hl & Hp & Hf).
  split; [by apply Hl|]. split; [apply Hp; by eexists|].
  apply Hf; [reflexivity|by eexists|by eexists].
Defined.

(** ** Replies *)

(** X5: when the query of a fetch in flight rejects, Dashboard writes to
    the console only: the notification sink gets nothing, the cached
    profile stays, and the loading flag is cleared. *)
Theorem rejected_fetch_is_silent (n : nat) (reason : string) (s : App) :
  n < length (fetches s) →
  let s' := step (FetchSettled n (Rejected reason)) s in
  toasts s' = toasts s ∧
  console s' = console s ++ ["Unexpected error:"] ∧
  profile s' = profile s ∧
  loading s' = false.
Proof.
  intros Hn s'. subst s'. apply lookup_lt_is_Some_2 in Hn as [uid Hn].
  unfold step. rerender_keeps. cbn. by rewrite Hn.
Qed.

Lemma rejected_fetch_is_silent_witness :
  0 < length (fetches (mount (Some ada))) ∧
  toasts (step (FetchSettled 0 (Rejected "offline")) (mount (Some ada))) = [].
Proof.
  split; [vm_compute; lia|].
  apply (rejected_fetch_is_silent 0 "offline" (mount (Some ada))).
  vm_compute; lia.
Defined.

(** X6: when a sign-out started by [handleLogout] settles, exactly one
    toast is sent: success, and then [navigate('/')] is called, or one of
    two errors, and then nothing is navigated. In all three cases [user],
    the cached profile, the loading flag and the requests in flight are
    left alone. *)
Theorem logout_outcomes (r : Settled (option string)) (s : App) :
  0 < signouts s →
  let s' := step (SignOutSettled r) s in
  toasts s' = toasts s ++ [logout_toast r] ∧
  nav s' = match r with Fulfilled None => nav s ++ ["/"] | _ => nav s end ∧
  signouts s' = pred (signouts s) ∧
  user s' = user s ∧ profile s' = profile s ∧ loading s' = loading s ∧
  fetches s' = fetches s ∧ updates s' = updates s.
Proof.
  intros Hso s'. subst s'. unfold step. rerender_keeps.
  destruct s as [u p l f fs us so ts c nv]; cbn in *.
  destruct so as [|so]; [lia|].
  destruct r as [[m|]|reason]; cbn; by repeat split.
Qed.

Lemma logout_outcomes_witness :
  0 < signouts (step ClickLogout ada_ready) ∧
  toasts (run [ClickLogout; SignOutSettled (Fulfilled (Some "network"))] ada_ready) =
    [ToastError "Failed to sign out"] ∧
  nav (run [ClickLogout; SignOutSettled (Fulfilled (Some "network"))] ada_ready) = [].
Proof.
  split; [vm_compute; lia|].
  rewrite run_cons. cbn [run foldl].
  destruct (logout_outcomes (Fulfilled (Some "network")) (step ClickLogout ada_ready))
    as (Ht & Hn & _); [vm_compute; lia|].
  split; [exact Ht|exact Hn].
Defined.

Lemma toasts_step (e : Event) (s : App) :
  (settles e = false → toasts (step e s) = toasts s) ∧
  (toasts (step e s) = toasts s ∨ ∃ t, toasts (step e s) = toasts s ++ [t]).
Proof.
  unfold step. rerender_keeps.
  destruct s as [u p l f fs us so ts c nv].
  destruct e as [[u'|]|n r| | |name value|now|n r| |r]; cbn;
    try (split; [done|by left]).
  - split; [done|]. destruct (fs !! n); [|by left].
    destruct r as [[d|k]|reason]; cbn; eauto.
  - destruct f, p; split; try done; by left.
  - split; [done|]. destruct (us !! n); [|by left].
    destruct r as [[d|k]|reason]; cbn; eauto.
  - split; [done|]. destruct so; [by left|].
    destruct r as [[m|]|reason]; cbn; eauto.
Qed.

(** X10: the notification log only grows, by at most one toast per event,
    and only when a handler resumes after its [await]: session changes,
    clicks and keystrokes never notify. After any sequence of events the
    old log is a prefix of the new one and has grown by no more than the
    number of settled requests. *)
Theorem notifications_only_on_replies (es : list Event) (s : App) :
  toasts s `prefix_of` toasts (run es s) ∧
  (length (toasts (run es s)) ≤
   length (toasts s) + length (filter (λ e, settles e = true) es))%nat.
Proof.
  revert s. induction es as [|e es IH]; intros s.
  - split; [done|]. cbn. lia.
  - rewrite run_cons. destruct (IH (step e s)) as [Hpre Hlen].
    destruct (toasts_step e s) as [Hquiet Hone].
    split.
    + etrans; [|exact Hpre].
      destruct Hone as [->|[t ->]]; [done|]. by apply prefix_app_r.
    + rewrite filter_cons. destruct (settles e) eqn:He.
      * rewrite decide_True by done. cbn.
        destruct Hone as [Ht|[t Ht]]; rewrite Ht in Hlen;
          [|rewrite length_app in Hlen; cbn in Hlen]; lia.
      * rewrite decide_False by done.
        rewrite (Hquiet eq_refl) in Hlen. lia.
Qed.

(** ** Update requests *)

Lemma init_complete (p : UserProfile) : draft_complete (ProfileForm.init p).
Proof. destruct (init_formData p) as (H1 & H2 & _). split; by eexists. Qed.

Lemma input_keeps_complete (name value : string) (f : ProfileForm.t) :
  draft_complete f → draft_complete (ProfileForm.handleInputChange name value f).
Proof.
  intros [H1 H2]. split; cbn; rewrite lookup_insert; by case_decide.
Qed.

Lemma update_patch_dom (fd : gmap string string) (now : string) :
  is_Some (fd !! "first_name") → is_Some (fd !! "last_name") →
  dom (ProfileForm.update_patch fd now) = patch_columns.
Proof.
  intros [x Hx] [y Hy]. apply set_eq. intros k.
  rewrite elem_of_dom, update_patch_lookup. unfold patch_columns.
  rewrite !elem_of_union, !elem_of_singleton.
  destruct (decide (k = "first_name")) as [->|H1].
  { rewrite Hx. split; [intros _; by left; left|by eexists]. }
  destruct (decide (k = "last_name")) as [->|H2].
  { rewrite Hy. split; [intros _; by left; right|by eexists]. }
  destruct (decide (k = "updated_at")) as [->|H3].
  { split; [intros _; by right|by eexists]. }
  split; [by intros [? ?]|]. by intros [[?|?]|?].
Qed.

Lemma react_well_formed (e : Event) (s : App) :
  requests_well_formed s → requests_well_formed (snd (react e s)).
Proof.
  destruct s as [u p l f fs us so ts c nv]. intros [Hf Hu]; cbn in *.
  assert (∀ b f0, (ProfileForm.setIsOpen b <$> f) = Some f0 → draft_complete f0) as Hopen.
  { intros b f0 H0. destruct f as [f1|]; [|done]. injection H0 as <-.
    exact (Hf f1 eq_refl). }
  assert (∀ b f0, (ProfileForm.setLoading b <$> f) = Some f0 → draft_complete f0) as Hload.
  { intros b f0 H0. destruct f as [f1|]; [|done]. injection H0 as <-.
    exact (Hf f1 eq_refl). }
  destruct e as [[u'|]|n r| | |name value|now|n r| |r]; cbn; try done.
  - destruct (fs !! n); [|done]. by destruct r as [[d|k]|reason].
  - split; [apply Hopen|done].
  - split; [apply Hopen|done].
  - split; [|done]. intros f0 H0. destruct f as [f1|]; [|done].
    injection H0 as <-. exact (input_keeps_complete _ _ _ (Hf f1 eq_refl)).
  - destruct f as [f1|]; [|done]. destruct p as [p1|]; [|done]. cbn.
    split; [intros f0 H0; injection H0 as <-; exact (Hf f1 eq_refl)|].
    apply Forall_app. split; [done|]. apply Forall_singleton. cbn.
    destruct (Hf f1 eq_refl). by apply update_patch_dom.
  - destruct (us !! n); [|done].
    pose proof (Forall_delete _ _ n Hu) as Hdel.
    destruct r as [[d|k]|reason]; cbn; (split; [|done]).
    + intros f0 H0. destruct f as [f1|]; [|done]. injection H0 as <-.
      exact (Hf f1 eq_refl).
    + apply Hload.
    + apply Hload.
  - destruct so; [done|]. by destruct r as [[m|]|reason].
Qed.

Lemma step_well_formed (e : Event) (s : App) :
  requests_well_formed s → requests_well_formed (step e s).
Proof.
  intros Hs. apply (react_well_formed e) in Hs as [Hf Hu].
  unfold step. split.
  - intros f. rewrite rerender_form.
    destruct (loading _); [done|]. destruct (profile _) as [p|]; [|done].
    destruct (form _) as [f0|]; cbn; intros H0; injection H0 as <-.
    + by apply Hf.
    + apply init_complete.
  - by rerender_keeps.
Qed.

(** X7: in every state Dashboard reaches from its mount, each update
    request in flight has exactly the columns [first_name], [last_name] and
    [updated_at]: the draft starts with both name fields and no edit
    removes one, so neither is ever missing from the patch. *)
Theorem update_requests_have_three_columns (u : option User) (es : list Event)
    (i : nat) (uid : string) (patch : Patch) :
  updates (run es (mount u)) !! i = Some (uid, patch) →
  dom patch = patch_columns ∧
  is_Some (patch !! "first_name") ∧ is_Some (patch !! "last_name") ∧
  patch !! "email" = None.
Proof.
  assert (∀ s, requests_well_formed s → requests_well_formed (run es s)) as Hrun.
  { induction es as [|e es IH]; intros s Hs; [done|].
    rewrite run_cons. by apply IH, step_well_formed. }
  assert (requests_well_formed (mount u)) as H0.
  { destruct u; split; cbn; by try constructor. }
  destruct (Hrun _ H0) as [_ Hu]. intros Hi.
  pose proof (proj1 (Forall_lookup _ _) Hu i _ Hi) as Hdom. cbn in Hdom.
  split; [done|]. rewrite <- !elem_of_dom, <- not_elem_of_dom, Hdom.
  unfold patch_columns. rewrite !elem_of_union, !elem_of_singleton.
  split; [by left; left|]. split; [by left; right|]. by intros [[?|?]|?].
Qed.

Lemma update_requests_have_three_columns_witness :
  updates ada_saving !! 0 =
    Some ("u-ada", ProfileForm.update_patch (ProfileForm.formData ada_saving_form)
                     "2025-07-01T00:00:00.000Z") ∧
  dom (ProfileForm.update_patch (ProfileForm.formData ada_saving_form)
         "2025-07-01T00:00:00.000Z") = patch_columns.
Proof.
  split; [reflexivity|].
  apply (update_requests_have_three_columns (Some ada)
           [FetchSettled 0 (Fulfilled (repo_fetch sample_store "u-ada")); OpenDialog;
            InputChange "first_name" "Augusta"; SubmitForm "2025-07-01T00:00:00.000Z"]
           0 "u-ada").
  reflexivity.
Defined.

(** X8: the draft is not taken again from the profile when another row
    arrives while the form is mounted; a submit after that sends the old
    draft to the row that is now shown. *)
Theorem submit_sends_old_draft_to_new_row (n : nat) (d : UserProfile) (now : string)
    (s : App) (f : ProfileForm.t) (p : UserProfile) :
  mounted s f p → n < length (fetches s) →
  let s' := step (FetchSettled n (Fulfilled (PgData d))) s in
  mounted s' f d ∧
  updates (step (SubmitForm now) s') =
    updates s ++ [(id d, ProfileForm.update_patch (ProfileForm.formData f) now)].
Proof.
  intros Hm Hn s'. subst s'.
  assert (mounted (step (FetchSettled n (Fulfilled (PgData d))) s) f d) as Hm'.
  { destruct (fetch_data_applied n d s Hn) as [Hp Hl].
    split; [by apply later_fetch_keeps_form with p|done]. }
  split; [done|].
  rewrite (step_submit now _ f d) by done. cbn.
  rewrite step_fetch_data by done. by rerender_keeps.
Qed.

Lemma submit_sends_old_draft_to_new_row_witness :
  mounted (step (AuthChange (Some bob)) ada_ready) (ProfileForm.init ada_row) ada_row ∧
  0 < length (fetches (step (AuthChange (Some bob)) ada_ready)) ∧
  updates (run [AuthChange (Some bob); FetchSettled 0 (Fulfilled (PgData bob_row));
                SubmitForm "2025-07-01T00:00:00.000Z"] ada_ready) =
    [("u-bob", ProfileForm.update_patch (ProfileForm.formData (ProfileForm.init ada_row))
                 "2025-07-01T00:00:00.000Z")].
Proof.
  split; [by repeat split|]. split; [vm_compute; lia|].
  rewrite !run_cons. cbn [run foldl].
  destruct (submit_sends_old_draft_to_new_row 0 bob_row "2025-07-01T00:00:00.000Z"
              (step (AuthChange (Some bob)) ada_ready) (ProfileForm.init ada_row) ada_row)
    as [_ ->]; [by repeat split|vm_compute; lia|].
  reflexivity.
Defined.

(** ** Typing *)

Lemma typed_untouched (edits : list (string * string)) (k : string)
    (fd : gmap string string) :
  Forall (λ kv, kv.1 ≠ k) edits → typed edits fd !! k = fd !! k.
Proof.
  intros Hedits. revert fd.
  induction Hedits as [|kv edits Hkv _ IH]; intros fd; [done|].
  unfold typed in *. cbn. rewrite IH. by rewrite lookup_insert_ne.
Qed.

Lemma typed_last (earlier later : list (string * string)) (k v : string)
    (fd : gmap string string) :
  Forall (λ kv, kv.1 ≠ k) later →
  typed (earlier ++ (k, v) :: later) fd !! k = Some v.
Proof.
  intros Hlater.
  assert (typed (earlier ++ (k, v) :: later) fd =
          typed later (<[k := v]> (typed earlier fd))) as ->
    by (unfold typed; by rewrite foldl_app).
  rewrite typed_untouched by done. by rewrite lookup_insert_eq.
Qed.

Lemma run_typing (edits : list (string * string)) (s : App)
    (f : ProfileForm.t) (p : UserProfile) :
  mounted s f p →
  run (typing edits) s =
  with_form (Some (ProfileForm.setFormData (typed edits) f)) s.
Proof.
  revert s f. induction edits as [|[k v] edits IH]; intros s f Hm.
  - destruct Hm as (Hf & _).
    destruct s as [u p' l f' fs us so ts c nv], f; cbn in *. by subst.
  - unfold typing. rewrite fmap_cons, run_cons. cbn [fst snd].
    rewrite (step_input k v s f p) by done.
    rewrite (IH _ (ProfileForm.handleInputChange k v f))
      by (by apply mounted_with_form with f).
    reflexivity.
Qed.

(** X9: typing composes as writes to a map. After any sequence of
    keystrokes the draft holds, for each input, the value typed last, and
    the entries of inputs not typed into are as before; nothing but the
    draft changes, and a submit then sends exactly that draft. *)
Theorem last_keystroke_wins (earlier later : list (string * string))
    (k v k' now : string) (s : App) (f : ProfileForm.t) (p : UserProfile) :
  mounted s f p →
  Forall (λ kv, kv.1 ≠ k) later →
  Forall (λ kv, kv.1 ≠ k') (earlier ++ (k, v) :: later) →
  let edits := earlier ++ (k, v) :: later in
  let s' := run (typing edits) s in
  s' = with_form (Some (ProfileForm.setFormData (typed edits) f)) s ∧
  (form s' ≫= λ f', ProfileForm.formData f' !! k) = Some v ∧
  (form s' ≫= λ f', ProfileForm.formData f' !! k') = ProfileForm.formData f !! k' ∧
  updates (step (SubmitForm now) s') =
    updates s ++ [(id p, ProfileForm.update_patch (typed edits (ProfileForm.formData f)) now)].
Proof.
  intros Hm Hlater Hother edits s'. subst edits s'.
  rewrite (run_typing _ s f p) by done.
  split; [done|]. cbn.
  split; [by apply typed_last|]. split; [by apply typed_untouched|].
  by rewrite (step_submit now _ (ProfileForm.setFormData
                (typed (earlier ++ (k, v) :: later)) f) p)
    by (by apply mounted_with_form with f).
Qed.

Lemma last_keystroke_wins_witness :
  let edits := [("first_name", "A"); ("first_name", "Au"); ("last_name", "K")] in
  mounted ada_ready (ProfileForm.init ada_row) ada_row ∧
  Forall (λ kv : string * string, kv.1 ≠ "first_name") [("last_name", "K")] ∧
  Forall (λ kv : string * string, kv.1 ≠ "email") edits ∧
  (form (run (typing edits) ada_ready) ≫= λ f', ProfileForm.formData f' !! "first_name")
    = Some "Au".
Proof.
  cbv zeta.
  split; [by repeat split|]. split; [by repeat constructor|].
  split; [by repeat constructor|].
  apply (last_keystroke_wins [("first_name", "A")] [("last_name", "K")]
           "first_name" "Au" "email" "2025-07-01T00:00:00.000Z"
           ada_ready (ProfileForm.init ada_row) ada_row);
    [by repeat split|by repeat constructor|by repeat constructor].
Defined.

(** ** Queries *)

(** What a sequence of dependency changes sends. *)
Lemma queries_of_auth_changes (us : list (option User)) (s : App) :
  fetches (run (AuthChange <$> us) s) =
    fetches s ++ omap (λ u : option User, user_id <$> u) us ∧
  profile (run (AuthChange <$> us) s) = profile s ∧
  loading (run (AuthChange <$> us) s) = loading s.
Proof.
  revert s. induction us as [|u us IH]; intros s.
  - cbn. by rewrite app_nil_r.
  - rewrite fmap_cons, run_cons.
    destruct (IH (step (AuthChange u) s)) as (Hf & Hp & Hl).
    rewrite Hf, Hp, Hl.
    destruct u as [u|].
    + rewrite step_auth_some. rerender_keeps. cbn. by rewrite <- app_assoc.
    + rewrite step_auth_none. by rerender_keeps.
Qed.

Lemma deliver_all_changes (rs : list (option UserRef)) (prev : option UserRef) (s : App) :
  (deliver_all rs (prev, s)).2 =
  run (AuthChange <$> ((λ r : option UserRef, ref_user <$> r) <$> changes prev rs)) s.
Proof.
  revert prev s. induction rs as [|r rs IH]; intros prev s; [done|].
  unfold deliver_all in *. cbn [foldl changes]. unfold deliver at 2. cbn [fst snd].
  destruct (same_object r prev); [apply IH|].
  rewrite IH. reflexivity.
Qed.

Lemma omap_user_ids (l : list (option UserRef)) :
  omap (λ u : option User, user_id <$> u) ((λ r : option UserRef, ref_user <$> r) <$> l) =
  omap (λ r : option UserRef, user_id ∘ ref_user <$> r) l.
Proof.
  induction l as [|[r|] l IH]; [done| |].
  - rewrite fmap_cons. cbn [omap list_omap fmap option_fmap option_map]. by f_equal.
  - rewrite fmap_cons. by cbn [omap list_omap fmap option_fmap option_map].
Qed.

(** X12: the effect runs once for every render whose [user] is another
    object than that of the render before, and sends one query for that
    object's id if it is not [null]; a render with the same object sends
    nothing. Only identity is compared, never the id: another object for
    the account already shown is fetched again. The cached profile and the
    loading flag are not touched. *)
Theorem one_query_per_new_user_object (rs : list (option UserRef))
    (prev : option UserRef) (s : App) :
  fetches (deliver_all rs (prev, s)).2 =
    fetches s ++ omap (λ r : option UserRef, user_id ∘ ref_user <$> r) (changes prev rs) ∧
  profile (deliver_all rs (prev, s)).2 = profile s ∧
  loading (deliver_all rs (prev, s)).2 = loading s ∧
  deliver prev (prev, s) = (prev, s) ∧
  ∀ a b : UserRef,
    ref_identity a ≠ ref_identity b →
    fetches (deliver (Some b) (Some a, s)).2 = fetches s ++ [user_id (ref_user b)].
Proof.
  rewrite deliver_all_changes.
  destruct (queries_of_auth_changes ((λ r : option UserRef, ref_user <$> r) <$> changes prev rs) s)
    as (Hf & Hp & Hl).
  split; [|split; [done|split; [done|split]]].
  - rewrite Hf. f_equal. apply omap_user_ids.
  - unfold deliver, same_object. cbn. by rewrite bool_decide_eq_true_2.
  - intros a b Hab. unfold deliver, same_object. cbn.
    rewrite bool_decide_eq_false_2 by congruence.
    cbn [snd]. rewrite step_auth_some. rerender_keeps. reflexivity.
Qed.

Lemma one_query_per_new_user_object_witness :
  ref_identity (mkRef 1 ada) ≠ ref_identity (mkRef 2 ada) ∧
  fetches (deliver_all [Some (mkRef 1 ada); Some (mkRef 1 ada); Some (mkRef 2 ada)]
             (None, mount None)).2 = ["u-ada"; "u-ada"] ∧
  fetches (deliver (Some (mkRef 2 ada)) (Some (mkRef 1 ada), ada_ready)).2 = ["u-ada"].
Proof.
  split; [cbn; lia|].
  destruct (one_query_per_new_user_object
              [Some (mkRef 1 ada); Some (mkRef 1 ada); Some (mkRef 2 ada)] None (mount None))
    as (Hf & _).
  split; [rewrite Hf; reflexivity|].
  destruct (one_query_per_new_user_object [] (Some (mkRef 1 ada)) ada_ready)
    as (_ & _ & _ & _ & Hnew).
  rewrite (Hnew (mkRef 1 ada) (mkRef 2 ada)) by (cbn; lia). reflexivity.
Defined.

(** ** The dashboard without a profile *)

(** X11: the first name Dashboard shows is never empty, so its first
    character exists; and when the first fetch fails (by an error reply or
    a rejected promise) Dashboard leaves the Loading view for the dashboard
    with "User" as the name, the e-mail and join date of the session, and
    no profile form. *)
Theorem failed_first_fetch_shows_placeholders (n : nat) (r : Settled PgResult) (s : App) :
  (∀ fn ln em jd b, render s = DashboardView fn ln em jd b → fn ≠ "") ∧
  (profile s = None → n < length (fetches s) → failed r →
   render (step (FetchSettled n r) s) =
     DashboardView "User" "" (js_or (user s ≫= user_email) "")
       (js_or (user_created_at <$> user s) "") false ∧
   form (step (FetchSettled n r) s) = None).
Proof.
  split.
  - intros fn ln em jd b. unfold render.
    destruct (loading s); [done|]. intros [= <- _ _ _ _].
    unfold js_or. destruct (profile s ≫= first_name) as [x|]; [|done].
    by case_decide.
  - intros Hp Hn Hr.
    destruct (any_settled_fetch_ends_loading n r s Hn) as (Hl & _).
    assert (profile (step (FetchSettled n r) s) = None ∧
            user (step (FetchSettled n r) s) = user s) as [Hp' Hu'].
    { apply lookup_lt_is_Some_2 in Hn as [uid Hn].
      unfold step. rerender_keeps. cbn. rewrite Hn.
      by destruct r as [[d|k]|reason]. }
    split.
    + unfold render. by rewrite Hl, Hp', Hu'.
    + unfold step in *. rewrite rerender_form.
      revert Hl Hp'. rerender_keeps. by intros -> ->.
Qed.

Lemma failed_first_fetch_shows_placeholders_witness :
  profile (mount (Some ada)) = None ∧
  0 < length (fetches (mount (Some ada))) ∧
  failed (Rejected "offline") ∧
  render (step (FetchSettled 0 (Rejected "offline")) (mount (Some ada))) =
    DashboardView "User" "" "ada@example.org" "2024-01-01T00:00:00.000Z" false.
Proof.
  split; [reflexivity|]. split; [vm_compute; lia|]. split; [exact I|].
  apply (failed_first_fetch_shows_placeholders 0 (Rejected "offline") (mount (Some ada)));
    [reflexivity|vm_compute; lia|exact I].
Defined.
